(** * Google Maps prospecting script: a shallow embedding and its properties

    The script under study ([google-prospeccao.py]) queries the Places API
    with two search strategies, follows the continuation token of each,
    enriches every hit through a detail lookup, merges and deduplicates the
    two tables and exports the result as a spreadsheet.

    The embedding follows the Python text function by function.  The remote
    provider is a deterministic function of the requests issued so far; the
    world threaded through the code is that request log together with the
    files written.  Python exceptions are an explicit outcome of every
    effectful step, so that [try ... except Exception] can be modelled as it
    is written.

    Left out: what the script prints, the progress bar, and the unused
    helper [converter_horarios].  pandas is modelled as far as its
    documentation describes the calls the script makes. *)

From Stdlib Require Import ZArith Floats.SpecFloat.
From stdpp Require Import base decidable option list strings pretty
  countable gmap fin_maps.

Set Warnings "-register-all".

Local Open Scope Z_scope.

(** ** Decoded JSON values

    [response.json()] yields Python values built from [None], booleans,
    integers, floats, strings, lists and dictionaries with string keys. *)

Inductive json : Type :=
| JNull
| JBool (b : bool)
| JInt (z : Z)
| JFloat (f : spec_float)
| JStr (s : string)
| JList (l : list json)
| JObj (m : gmap string json).

Module Json.

(** Size of a value, used only as the measure of the induction principle
    below (the generated one says nothing about the nested occurrences). *)
Fixpoint size (j : json) : nat :=
  match j with
  | JList l => S (foldr (λ x acc, size x + acc)%nat 0%nat l)
  | JObj m => S (map_fold (λ _ x acc, size x + acc)%nat 0%nat m)
  | _ => 1%nat
  end.

(** Scalars are the leaves of the encoding into [gen_tree]. *)
Inductive leaf : Type :=
| LNull | LBool (b : bool) | LInt (z : Z) | LFloat (f : spec_float)
| LStr (s : string).

Definition field (kv : string * gen_tree leaf) : gen_tree leaf :=
  GenNode 2 [GenLeaf (LStr kv.1); kv.2].

Fixpoint encode (j : json) : gen_tree leaf :=
  match j with
  | JNull => GenLeaf LNull
  | JBool b => GenLeaf (LBool b)
  | JInt z => GenLeaf (LInt z)
  | JFloat f => GenLeaf (LFloat f)
  | JStr s => GenLeaf (LStr s)
  | JList l => GenNode 0 (encode <$> l)
  | JObj m => GenNode 1 (field <$> map_to_list (encode <$> m))
  end.

#[global] Instance spec_float_eq_dec : EqDecision spec_float.
Proof. solve_decision. Defined.

#[global] Instance leaf_eq_dec : EqDecision leaf.
Proof. solve_decision. Defined.

(** Induction with hypotheses for the elements of a list and the values of
    an object. *)
Lemma rect' (P : json → Prop) :
  P JNull → (∀ b, P (JBool b)) → (∀ z, P (JInt z)) → (∀ f, P (JFloat f)) →
  (∀ s, P (JStr s)) →
  (∀ l, Forall P l → P (JList l)) →
  (∀ m, map_Forall (λ _, P) m → P (JObj m)) →
  ∀ j, P j.
Proof.
  intros Hn Hb Hz Hf Hs Hl Hm j.
  remember (size j) as n eqn:Hsz. revert j Hsz.
  induction (lt_wf n) as [n _ IH]. intros j ->.
  destruct j as [| | | | |l|m]; auto.
  - apply Hl. simpl in IH.
    induction l as [|x l IHl]; constructor.
    + apply (IH (size x)); [simpl; lia|done].
    + apply IHl. intros k Hk. apply IH. simpl. lia.
  - apply Hm. simpl in IH. revert IH.
    induction m as [|k x m Hk Hfold IHm] using map_first_key_ind; intros IH.
    + apply map_Forall_empty.
    + rewrite map_fold_insert_first_key in IH by done.
      apply map_Forall_insert; [done|]. split.
      * apply (IH (size x)); [lia|done].
      * apply IHm. intros k' Hk'. apply IH. lia.
Qed.

Lemma field_inj : Inj (=) (=) field.
Proof. intros [k1 t1] [k2 t2]; unfold field; simpl. congruence. Qed.

Lemma encode_inj : Inj (=) (=) encode.
Proof.
  intros x; induction x as [| | | | |l IHl|m IHm] using rect';
    intros [| | | | |l'|m']; simpl; try congruence.
  - intros [=Heq]. f_equal. revert l' Heq.
    induction IHl as [|x l Hx _ IH]; intros [|y l']; simpl; try done.
    intros [=Hxy Hl]. f_equal; [by apply Hx|by apply IH].
  - intros [=Heq]. f_equal.
    apply (list_fmap_eq_inj field field_inj) in Heq.
    apply (f_equal (list_to_map (M:=gmap string (gen_tree leaf)))) in Heq.
    rewrite !list_to_map_to_list in Heq.
    apply map_eq. intros k.
    apply (f_equal (λ n, n !! k)) in Heq. rewrite !lookup_fmap in Heq.
    destruct (m !! k) as [x|] eqn:Hmk, (m' !! k) as [y|]; simpl in Heq;
      try done.
    f_equal. apply (IHm k x Hmk). congruence.
Qed.

End Json.

#[global] Instance json_eq_dec : EqDecision json.
Proof.
  refine (λ x y, cast_if (decide (Json.encode x = Json.encode y)));
    abstract (first [by apply Json.encode_inj | congruence]).
Defined.

(** ** Python operations on decoded values *)

(** The exceptions the script can meet; every one of them is a subclass of
    [Exception].  [Excecao] stands for the classes the script's own
    operations do not raise, by the name of the class: those of the workbook
    writer and of the file system. *)
Inductive exn : Type :=
| KeyError | TypeError | AttributeError | IndexError
| RequestException | JSONDecodeError
| Excecao (classe : string).

(** The sentinel substituted for absent fields. *)
Definition NA : json := JStr "N/A".

(** The float NaN pandas writes into cells that have no value. *)
Definition NaN : json := JFloat S754_nan.

(** Truth value of a Python object, as tested by [if x:] and [not x]. *)
Definition py_bool (j : json) : bool :=
  match j with
  | JNull => false
  | JBool b => b
  | JInt z => negb (bool_decide (z = 0))
  | JFloat (S754_zero _) => false
  | JFloat _ => true
  | JStr s => negb (bool_decide (s = ""))
  | JList l => negb (bool_decide (l = []))
  | JObj m => negb (bool_decide (m = ∅))
  end.

(** [j[k]] for a string key: only a dictionary can be subscripted by a
    string. *)
Definition py_getitem (j : json) (k : string) : exn + json :=
  match j with
  | JObj m => match m !! k with Some v => inr v | None => inl KeyError end
  | _ => inl TypeError
  end.

(** [j[i]] for an integer index (only index [0] occurs in the script). *)
Definition py_getitem_int (j : json) (i : nat) : exn + json :=
  match j with
  | JList l => match l !! i with Some v => inr v | None => inl IndexError end
  | JStr s =>
      match String.get i s with
      | Some c => inr (JStr (String c ""))
      | None => inl IndexError
      end
  | JObj _ => inl KeyError
  | _ => inl TypeError
  end.

(** [j.get(k, d)]: of the decoded values only dictionaries have the method. *)
Definition py_get (j : json) (k : string) (d : json) : exn + json :=
  match j with
  | JObj m => inr (default d (m !! k))
  | _ => inl AttributeError
  end.

(** The items a [for] loop draws from a value: the elements of a list, the
    characters of a string, the keys of a dictionary (in an order that does
    not matter here: the loop body raises on the first of them, a string). *)
Definition py_iter (j : json) : exn + list json :=
  match j with
  | JList l => inr l
  | JStr s => inr ((λ c, JStr (String c "")) <$> String.list_ascii_of_string s)
  | JObj m => inr (JStr <$> (map_to_list m).*1)
  | _ => inl TypeError
  end.

(** [x == 'OK'] for a decoded value [x]. *)
Definition py_eq_str (j : json) (s : string) : bool := bool_decide (j = JStr s).

(** Optional arguments ([None] by default) as Python values. *)
Definition py_opt_str (o : option string) : json := from_option JStr JNull o.
Definition py_opt_int (o : option Z) : json := from_option JInt JNull o.

(** ** Rows and tables *)

(** The dictionary appended to [resultados] for each hit always has the four
    keys ['Nome'], ['Endereço'], ['Telefone'] and ['Website']. *)
Record ResultRow : Type := {
  Nome : json;
  Endereco : json;
  Telefone : json;
  Website : json
}.

#[global] Instance ResultRow_eq_dec : EqDecision ResultRow.
Proof. solve_decision. Defined.

Definition row_values (r : ResultRow) : list json :=
  [Nome r; Endereco r; Telefone r; Website r].

Definition row_columns : list string :=
  ["Nome"; "Endereço"; "Telefone"; "Website"].

(** The part of pandas the script uses.  A frame is its column labels and its
    rows of cells; the row index is not modelled ([reset_index(drop=True)]
    and [index=False] discard it). *)
Module pd.

Record DataFrame : Type := { columns : list string; values : list (list json) }.

(** [pd.DataFrame(records)] for a list of dictionaries that all have the
    keys of [ResultRow]: the columns are the keys of the records, and an empty
    list gives a frame without columns. *)
Definition from_records (records : list ResultRow) : DataFrame :=
  {| columns := match records with [] => [] | _ :: _ => row_columns end;
     values := row_values <$> records |}.

(** [df.empty]: some axis has length zero. *)
Definition empty (df : DataFrame) : bool :=
  bool_decide (columns df = []) || bool_decide (values df = []).

(** Cells of [row] (labelled by [from]) laid out under the labels [to]; a
    label [row] does not have gives NaN. *)
Definition reindex (from to : list string) (row : list json) : list json :=
  (λ c, default NaN ((list_to_map (zip from row) : gmap string json) !! c))
    <$> to.

(** [pd.concat([a, b])]: the union of the columns in order of appearance,
    the rows of [a] followed by those of [b]. *)
Definition concat (a b : DataFrame) : DataFrame :=
  let cols := columns a ++ filter (λ c, c ∉ columns a) (columns b) in
  {| columns := cols;
     values := (reindex (columns a) cols <$> values a)
                 ++ (reindex (columns b) cols <$> values b) |}.

(** The first occurrences of the elements of a list, in their order: an
    element is dropped when an equal one came before it (or is in [seen]). *)
Fixpoint keep_first {A} `{EqDecision A} (seen l : list A) : list A :=
  match l with
  | [] => []
  | x :: l =>
      if decide (x ∈ seen) then keep_first seen l
      else x :: keep_first (x :: seen) l
  end.

(** The same for elements that are compared by a key. *)
Fixpoint keep_first_by {A B} `{EqDecision B} (key : A → B) (seen : list B)
    (l : list A) : list A :=
  match l with
  | [] => []
  | x :: l =>
      if decide (key x ∈ seen) then keep_first_by key seen l
      else x :: keep_first_by key (key x :: seen) l
  end.

(** What [drop_duplicates] compares a cell by.  pandas looks the cells up
    in a hash table, so that two cells are the same when Python finds them
    equal: numbers by their value whatever their type ([1], [1.0] and [True]
    are one value), strings by their characters; [None] and NaN count as one
    missing value.  A finite number is kept as [m * 2 ^ e] with [m] odd, zero
    as [0 * 2 ^ 0].  (A column that holds numbers only is converted to one
    numeric type first; the rounding of integers beyond 2 ^ 53 this can
    bring is not modelled.) *)
Inductive chave : Type :=
| KNa
| KNum (m e : Z)
| KInf (negativo : bool)
| KStr (s : string).

#[global] Instance chave_eq_dec : EqDecision chave.
Proof. solve_decision. Defined.

(** [p] as an odd number times a power of two. *)
Fixpoint parte_impar (p : positive) : positive * Z :=
  match p with
  | xO p' => let r := parte_impar p' in (r.1, r.2 + 1)
  | _ => (p, 0)
  end.

(** The key of the number [z * 2 ^ e]. *)
Definition numero (z e : Z) : chave :=
  match z with
  | Z0 => KNum 0 0
  | Zpos p => let r := parte_impar p in KNum (Zpos r.1) (r.2 + e)
  | Zneg p => let r := parte_impar p in KNum (Zneg r.1) (r.2 + e)
  end.

(** The key of a cell; a list and a dictionary cannot be hashed. *)
Definition hash (j : json) : option chave :=
  match j with
  | JNull => Some KNa
  | JBool b => Some (numero (if b then 1 else 0) 0)
  | JInt z => Some (numero z 0)
  | JFloat (S754_zero _) => Some (KNum 0 0)
  | JFloat (S754_infinity s) => Some (KInf s)
  | JFloat S754_nan => Some KNa
  | JFloat (S754_finite s m e) => Some (numero (if s then Zneg m else Zpos m) e)
  | JStr s => Some (KStr s)
  | JList _ | JObj _ => None
  end.

(** [df.drop_duplicates()] ([keep='first']): a row is dropped when a row
    with the same keys came before it; a cell that cannot be hashed makes
    the call raise [TypeError]. *)
Definition drop_duplicates (df : DataFrame) : exn + DataFrame :=
  if forallb (forallb (λ j, bool_decide (is_Some (hash j)))) (values df) then
    inr {| columns := columns df;
           values := keep_first_by (fmap hash) [] (values df) |}
  else inl TypeError.

Definition reset_index (df : DataFrame) : DataFrame := df.

(** [df.rename(columns=m)]: labels absent from [m] are left alone. *)
Definition rename (m : gmap string string) (df : DataFrame) : DataFrame :=
  {| columns := (λ c, default c (m !! c)) <$> columns df;
     values := values df |}.

(** [df[c] = v] for a scalar [v]: every cell of column [c] becomes [v]; a new
    label is added as the last column. *)
Definition setitem (c : string) (v : json) (df : DataFrame) : DataFrame :=
  if decide (c ∈ columns df) then
    {| columns := columns df;
       values := (λ row, (λ '(c', x), if decide (c' = c) then v else x)
                            <$> zip (columns df) row) <$> values df |}
  else
    {| columns := columns df ++ [c];
       values := (λ row, row ++ [v]) <$> values df |}.

(** [df[[c1, ..., cn]]]: the listed columns in the listed order, or a
    [KeyError] when a label is not a column. *)
Definition getitem (cs : list string) (df : DataFrame) : exn + DataFrame :=
  if decide (Forall (λ c, c ∈ columns df) cs) then
    inr {| columns := cs; values := reindex (columns df) cs <$> values df |}
  else inl KeyError.

End pd.

(** ** The world and the effects *)

(** A request is the URL and the [params] dictionary handed to
    [requests.get]. *)
Definition request : Type := string * gmap string json.

(** What a file holds: a spreadsheet that was written in full, or what a
    write that failed left under the name (the file as it was, a truncated
    file: nothing is said about it). *)
Inductive arquivo : Type :=
| Planilha (df : pd.DataFrame)
| Incompleto.

(** What the script can observe of its environment: the requests issued so
    far, oldest first, and the files written, by file name inside the
    script's directory. *)
Record World : Type := {
  requests : list request;
  files : gmap string arquivo
}.

(** What the script is run against.  [provider log req] is what
    [requests.get(...).json()] gives for [req] after the requests of [log]:
    a decoded body, or the exception raised by the transport or by the
    decoding.  [API_KEY] is the value of the environment variable ([None]
    when unset) and [py_repr] is the interpreter's rendering of floats and
    containers inside an f-string.  [excel_error nome df] is the exception
    that writing the frame [df] to the file [nome] ends with, [None] when
    the write succeeds: the workbook writer refuses some cell contents (a
    string with a control character, a list, a dictionary) and the file
    system may refuse the file. *)
Record Env : Type := {
  provider : list request → request → exn + json;
  API_KEY : json;
  py_repr : json → string;
  excel_error : string → pd.DataFrame → option exn
}.

(** Outcome of running a piece of the script from a state: a value, an
    exception (the state reached when it was raised is kept: lists and
    dictionaries mutated before the [raise] stay mutated), or no outcome
    within the number of loop iterations allowed. *)
Inductive outcome (S A : Type) : Type :=
| Done (a : A) (s : S)
| Raised (e : exn) (s : S)
| OutOfFuel.
Arguments Done {S A} a s.
Arguments Raised {S A} e s.
Arguments OutOfFuel {S A}.

Definition M (S A : Type) : Type := S → outcome S A.

#[global] Instance M_ret {S} : MRet (M S) := λ A a s, Done a s.

#[global] Instance M_bind {S} : MBind (M S) := λ A B k m s,
  match m s with
  | Done a s' => k a s'
  | Raised e s' => Raised e s'
  | OutOfFuel => OutOfFuel
  end.

(** [try: m except Exception as e: h e]. *)
Definition try_except {S A} (m : M S A) (h : exn → M S A) : M S A := λ s,
  match m s with
  | Raised e s' => h e s'
  | o => o
  end.

(** Pure Python operations that may raise are sequenced the same way. *)
#[global] Instance exn_ret : MRet (sum exn) := λ A a, inr a.

#[global] Instance exn_bind : MBind (sum exn) := λ A B k r,
  match r with inl e => inl e | inr a => k a end.

(** A pure Python operation that may raise, as a step of the script. *)
Definition liftE {S A} (r : exn + A) : M S A := λ s,
  match r with inl e => Raised e s | inr a => Done a s end.

Definition gets {S A} (f : S → A) : M S A := λ s, Done (f s) s.
Definition modify {S} (f : S → S) : M S unit := λ s, Done () (f s).

(** [for x in l: body x]. *)
Fixpoint for_each {S A} (body : A → M S unit) (l : list A) : M S unit :=
  match l with
  | [] => mret ()
  | x :: l => body x ≫= λ _, for_each body l
  end.

(** ** The script *)

Definition BASE_URL : string :=
  "https://maps.googleapis.com/maps/api/place/textsearch/json".
Definition nearby_url : string :=
  "https://maps.googleapis.com/maps/api/place/nearbysearch/json".
Definition detalhes_url : string :=
  "https://maps.googleapis.com/maps/api/place/details/json".
Definition geocode_url : string :=
  "https://maps.googleapis.com/maps/api/geocode/json".

(** The variables of a search function that its loop reads and updates. *)
Record locais : Type := {
  params : gmap string json;
  resultados : list ResultRow;
  next_page_token : json
}.

Definition set_pagetoken (t : json) (l : locais) : locais :=
  {| params := <["pagetoken" := t]> (params l);
     resultados := resultados l;
     next_page_token := next_page_token l |}.

Definition append_resultado (r : ResultRow) (l : locais) : locais :=
  {| params := params l;
     resultados := resultados l ++ [r];
     next_page_token := next_page_token l |}.

Definition set_next_page_token (t : json) (l : locais) : locais :=
  {| params := params l;
     resultados := resultados l;
     next_page_token := t |}.

(** A computation on the world, run inside a search function. *)
Definition lift {A} (m : M World A) : M (World * locais) A := λ s,
  match m s.1 with
  | Done a w => Done a (w, s.2)
  | Raised e w => Raised e (w, s.2)
  | OutOfFuel => OutOfFuel
  end.

Definition local {A} (f : locais → A) : M (World * locais) A :=
  gets (λ s, f s.2).
Definition update (f : locais → locais) : M (World * locais) unit :=
  modify (λ s, (s.1, f s.2)).

Definition log_request (r : request) (w : World) : World :=
  {| requests := requests w ++ [r]; files := files w |}.

(** [str(v)] as an f-string field renders it. *)
Definition py_str (env : Env) (j : json) : string :=
  match j with
  | JStr s => s
  | JNull => "None"
  | JBool true => "True"
  | JBool false => "False"
  | JInt z => pretty z
  | _ => py_repr env j
  end.

Section Script.

Context (env : Env).

(** [requests.get(url, params=params)] followed by [response.json()]. *)
Definition requests_get_json (url : string) (params : gmap string json)
  : M World json := λ w,
  match provider env (requests w) (url, params) with
  | inl e => Raised e (log_request (url, params) w)
  | inr dados => Done dados (log_request (url, params) w)
  end.

Definition detalhes_params (place_id : json) : gmap string json :=
  {[ "place_id" := place_id;
     "key" := API_KEY env;
     "fields" := JStr "name,formatted_phone_number,website" ]}.

Definition obter_detalhes_por_place_id (place_id : json) : M World json :=
  try_except
    (dados ← requests_get_json detalhes_url (detalhes_params place_id);
     status ← liftE (py_getitem dados "status");
     if py_eq_str status "OK" then liftE (py_getitem dados "result")
     else mret (JObj ∅))
    (λ _, mret (JObj ∅)).

Definition geocode_params (cidade estado : string) : gmap string json :=
  {[ "address" := JStr (cidade +:+ ", " +:+ estado);
     "key" := API_KEY env ]}.

Definition obter_coordenadas (cidade estado : string)
  : M World (option string) :=
  try_except
    (dados ← requests_get_json geocode_url (geocode_params cidade estado);
     status ← liftE (py_getitem dados "status");
     if py_eq_str status "OK" then
       results ← liftE (py_getitem dados "results");
       primeiro ← liftE (py_getitem_int results 0);
       geometry ← liftE (py_getitem primeiro "geometry");
       location ← liftE (py_getitem geometry "location");
       lat ← liftE (py_getitem location "lat");
       lng ← liftE (py_getitem location "lng");
       mret (Some (py_str env lat +:+ "," +:+ py_str env lng))
     else mret None)
    (λ _, mret None).

(** The [if detalhes: ... else: ...] block: the three values read from the
    detail result. *)
Definition extrair_contato (detalhes : json) : exn + (json * json * json) :=
  if py_bool detalhes then
    telefone ← py_get detalhes "formatted_phone_number" NA;
    website ← py_get detalhes "website" NA;
    razao_social_detalhada ← py_get detalhes "name" NA;
    mret (telefone, website, razao_social_detalhada)
  else mret (NA, NA, NA).

(** The body of the [for resultado in dados['results']] loop.  The two
    search functions differ in the key the address is read from
    (['formatted_address'] or ['vicinity']). *)
Definition processar_resultado (campo_endereco : string) (resultado : json)
  : M (World * locais) unit :=
  nome ← liftE (py_get resultado "name" NA);
  endereco ← liftE (py_get resultado campo_endereco NA);
  place_id ← liftE (py_get resultado "place_id" NA);
  lat ← liftE (geometry ← py_get resultado "geometry" (JObj ∅);
               location ← py_get geometry "location" (JObj ∅);
               py_get location "lat" NA);
  lng ← liftE (geometry ← py_get resultado "geometry" (JObj ∅);
               location ← py_get geometry "location" (JObj ∅);
               py_get location "lng" NA);
  detalhes ← lift (obter_detalhes_por_place_id place_id);
  contato ← liftE (extrair_contato detalhes);
  update (append_resultado
            {| Nome := nome; Endereco := endereco;
               Telefone := contato.1.1; Website := contato.1.2 |}).

(** One pass through the body of the [while True] loop; the value tells
    whether the loop goes on ([false] stands for [break]). *)
Definition pagina (url campo_endereco : string) : M (World * locais) bool :=
  token ← local next_page_token;
  (if py_bool token then update (set_pagetoken token) else mret ()) ≫= λ _,
  params ← local params;
  dados ← lift (requests_get_json url params);
  status ← liftE (py_getitem dados "status");
  if py_eq_str status "OK" then
    results ← liftE (py_getitem dados "results");
    itens ← liftE (py_iter results);
    for_each (processar_resultado campo_endereco) itens ≫= λ _,
    token ← liftE (py_get dados "next_page_token" JNull);
    update (set_next_page_token token) ≫= λ _,
    mret (py_bool token)
  else mret false.

(** The [while True] loop; [fuel] bounds the number of passes. *)
Fixpoint paginar (url campo_endereco : string) (fuel : nat)
  : M (World * locais) unit :=
  match fuel with
  | O => λ _, OutOfFuel
  | S fuel =>
      pagina url campo_endereco ≫= λ continua : bool,
      if continua then paginar url campo_endereco fuel else mret ()
  end.

Definition inicio (params0 : gmap string json) : locais :=
  {| params := params0; resultados := []; next_page_token := JNull |}.

(** The common shape of the two search functions: initialise the variables,
    run the loop inside [try ... except Exception], and return
    [pd.DataFrame(resultados)] in either case. *)
Definition buscar (url campo_endereco : string) (params0 : gmap string json)
    (fuel : nat) : M World pd.DataFrame := λ w,
  match try_except (paginar url campo_endereco fuel) (λ _, mret ())
          (w, inicio params0) with
  | Done _ s => Done (pd.from_records (resultados s.2)) s.1
  | Raised e s => Raised e s.1
  | OutOfFuel => OutOfFuel
  end.

(** [params[k] += suffix] where [params[k]] holds a string (the value under
    ['query'] is [razao_social]). *)
Definition iadd_str (k suffix : string) (params : gmap string json)
  : gmap string json :=
  alter (λ v, match v with JStr s => JStr (s +:+ suffix) | _ => v end) k params.

Definition textsearch_params (razao_social : string)
    (localizacao : option string) (raio : option Z)
    (cidade estado : option string) : gmap string json :=
  let params : gmap string json :=
    {[ "query" := JStr razao_social; "key" := API_KEY env ]} in
  let params :=
    if py_bool (py_opt_str localizacao)
    then <["location" := py_opt_str localizacao]> params else params in
  let params :=
    if py_bool (py_opt_int raio)
    then <["radius" := py_opt_int raio]> params else params in
  let params :=
    if py_bool (py_opt_str cidade)
    then iadd_str "query" (" in " +:+ default "" cidade) params
    else params in
  if py_bool (py_opt_str estado)
  then iadd_str "query" (", " +:+ default "" estado) params
  else params.

Definition buscar_textsearch (fuel : nat) (razao_social : string)
    (localizacao : option string) (raio : option Z)
    (cidade estado : option string) : M World pd.DataFrame :=
  buscar BASE_URL "formatted_address"
    (textsearch_params razao_social localizacao raio cidade estado) fuel.

Definition nearbysearch_params (razao_social : string)
    (localizacao : option string) (raio : option Z) : gmap string json :=
  {[ "keyword" := JStr razao_social;
     "location" := py_opt_str localizacao;
     "radius" := py_opt_int raio;
     "key" := API_KEY env ]}.

Definition buscar_nearbysearch (fuel : nat) (razao_social : string)
    (localizacao : option string) (raio : option Z) : M World pd.DataFrame :=
  buscar nearby_url "vicinity"
    (nearbysearch_params razao_social localizacao raio) fuel.

Definition buscar_empresas_por_razao_social (fuel : nat)
    (razao_social : string) (localizacao : option string) (raio : option Z)
    (cidade estado : option string) : M World pd.DataFrame :=
  resultados_textsearch ←
    buscar_textsearch fuel razao_social localizacao raio cidade estado;
  resultados_nearbysearch ←
    buscar_nearbysearch fuel razao_social localizacao raio;
  sem_duplicatas ←
    liftE (pd.drop_duplicates
             (pd.concat resultados_textsearch resultados_nearbysearch));
  mret (pd.reset_index sem_duplicatas).

Definition export_columns : list string :=
  ["REGIAO"; "NOME DA EMPRESA"; "NOME DO CONTATO"; "TELEFONE"; "SITE"].

Definition renomear : gmap string string :=
  {[ "Endereço" := "REGIAO"; "Nome" := "NOME DA EMPRESA";
     "Telefone" := "TELEFONE"; "Website" := "SITE" ]}.

(** [to_excel(caminho_arquivo, index=False)]: the frame becomes the content
    of the file, unless the write fails. *)
Definition to_excel (nome_arquivo : string) (df : pd.DataFrame)
  : M World unit := λ w,
  match excel_error env nome_arquivo df with
  | None =>
      Done () {| requests := requests w;
                 files := <[nome_arquivo := Planilha df]> (files w) |}
  | Some e =>
      Raised e {| requests := requests w;
                  files := <[nome_arquivo := Incompleto]> (files w) |}
  end.

Definition salvar_resultados (resultados : pd.DataFrame)
    (nome_arquivo : string) (cidade : string) : M World unit :=
  let resultados_filtrados := resultados in
  let resultados_formatados := pd.rename renomear resultados_filtrados in
  let resultados_formatados :=
    pd.setitem "NOME DO CONTATO" (JStr "") resultados_formatados in
  resultados_formatados ←
    liftE (pd.getitem export_columns resultados_formatados);
  to_excel nome_arquivo resultados_formatados.

(** The [__main__] block; [cidade] and [estado] are the two lines read
    from the terminal. *)
Definition main (fuel : nat) (cidade estado : string) : M World unit :=
  let razao_social := "RAZAO SOCIAL" in
  localizacao ← obter_coordenadas cidade estado;
  let raio := 23000 in
  if py_bool (py_opt_str localizacao) then
    resultados ←
      buscar_empresas_por_razao_social fuel razao_social localizacao
        (Some raio) (Some cidade) (Some estado);
    if negb (pd.empty resultados) then
      salvar_resultados resultados "resultados_busca_formatado.xlsx" cidade
    else mret ()
  else mret ().

End Script.

(** ** The opening-hours helper *)

Module Horarios.

(** [converter_horarios] can raise [ValueError], which the rest of the
    script does not meet. *)
Inductive erro : Type :=
| ValueError
| Outra (e : exn).

(** [s] without its prefix [p], if it starts with [p]. *)
Fixpoint strip_prefix (p s : string) : option string :=
  match p with
  | EmptyString => Some s
  | String a p' =>
      match s with
      | String b s' => if decide (a = b) then strip_prefix p' s' else None
      | EmptyString => None
      end
  end.

(** [s.split(sep, 1)] when [sep] occurs in [s]: what stands before and
    after its leftmost occurrence; [None] stands for the one-element list
    [[s]] the call gives when [sep] does not occur. *)
Fixpoint str_split1 (sep s : string) : option (string * string) :=
  match strip_prefix sep s with
  | Some depois => Some (EmptyString, depois)
  | None =>
      match s with
      | EmptyString => None
      | String c s' =>
          match str_split1 sep s' with
          | Some (antes, depois) => Some (String c antes, depois)
          | None => None
          end
      end
  end.

(** [l.index(x)]: the position of the first [x], [None] for [ValueError]. *)
Fixpoint list_index (x : string) (l : list string) : option nat :=
  match l with
  | [] => None
  | y :: l => if decide (x = y) then Some 0%nat else S <$> list_index x l
  end.

(** [sep.join(l)]. *)
Fixpoint str_join (sep : string) (l : list string) : string :=
  match l with
  | [] => ""
  | [s] => s
  | s :: l => s +:+ sep +:+ str_join sep l
  end.

Definition dias_semana : list string :=
  ["SEG"; "TER"; "QUA"; "QUI"; "SEX"; "SAB"; "DOM"].

Definition dias_ingles : list string :=
  ["Monday"; "Tuesday"; "Wednesday"; "Thursday"; "Friday"; "Saturday";
   "Sunday"].

(** [dia, _ = horario.split(': ', 1)] followed by
    [dias_semana[dias_ingles.index(dia)]]. *)
Definition dia_abreviado (horario : string) : erro + string :=
  match str_split1 ": " horario with
  | None => inl ValueError
  | Some (dia, _) =>
      match list_index dia dias_ingles with
      | None => inl ValueError
      | Some i =>
          match dias_semana !! i with
          | Some d => inr d
          | None => inl (Outra IndexError)
          end
      end
  end.

(** [horarios_convertidos]: a dictionary, whose keys keep the order in which
    they were inserted. *)
Definition dicionario : Type := list (string * list string).

(** The two statements that update the dictionary for a day: a new key gets
    the empty list, then the day is appended to the list of its key. *)
Definition registrar_dia (d : string) (hc : dicionario) : dicionario :=
  let hc := if decide (d ∈ (hc.*1)) then hc else hc ++ [(d, [])] in
  (λ kv, if decide (kv.1 = d) then (kv.1, kv.2 ++ [d]) else kv) <$> hc.

(** The first loop. *)
Fixpoint agrupar (horarios : list string) (hc : dicionario)
  : erro + dicionario :=
  match horarios with
  | [] => inr hc
  | horario :: horarios =>
      match dia_abreviado horario with
      | inl e => inl e
      | inr d => agrupar horarios (registrar_dia d hc)
      end
  end.

(** The body of the second loop: the text for one list of days. *)
Definition formatar_dias (dias : list string) : erro + string :=
  if decide (length dias = 7%nat) then inr "SEG-DOM"
  else if decide (length dias = 6%nat ∧ ("DOM" ∉ dias)) then inr "SEG-SAB"
  else if decide (length dias = 5%nat ∧ ("SAB" ∉ dias) ∧ ("DOM" ∉ dias))
  then inr "SEG-SEX"
  else if decide (1 < length dias)%nat then
    match head dias, last dias with
    | Some primeiro, Some ultimo => inr (primeiro +:+ "-" +:+ ultimo)
    | _, _ => inl (Outra IndexError)
    end
  else
    match head dias with
    | Some primeiro => inr primeiro
    | None => inl (Outra IndexError)
    end.

(** The second loop. *)
Fixpoint formatar (valores : list (list string)) : erro + list string :=
  match valores with
  | [] => inr []
  | dias :: valores =>
      match formatar_dias dias with
      | inl e => inl e
      | inr s =>
          match formatar valores with
          | inl e => inl e
          | inr l => inr (s :: l)
          end
      end
  end.

(** [horarios] is a list of strings, as the [weekday_text] of a place is. *)
Definition converter_horarios (horarios : list string) : erro + string :=
  match agrupar horarios [] with
  | inl e => inl e
  | inr horarios_convertidos =>
      match formatar horarios_convertidos.*2 with
      | inl e => inl e
      | inr horarios_formatados => inr (str_join ", " horarios_formatados)
      end
  end.

(** ** Vocabulary *)

(** An entry that starts with an English day name followed by [": "]. *)
Definition entrada_valida (horario : string) : Prop :=
  ∃ dia resto, horario = dia +:+ ": " +:+ resto ∧ dia ∈ dias_ingles.

(** How often [d] occurs in [ds]. *)
Definition contar (d : string) (ds : list string) : nat :=
  length (filter (λ x : string, x = d) ds).

(** The text for a day that occurs [n] times. *)
Definition formato (d : string) (n : nat) : string :=
  if decide (n = 7%nat) then "SEG-DOM"
  else if decide (n = 6%nat ∧ d ≠ "DOM") then "SEG-SAB"
  else if decide (n = 5%nat ∧ d ≠ "SAB" ∧ d ≠ "DOM") then "SEG-SEX"
  else if decide (1 < n)%nat then d +:+ "-" +:+ d
  else d.

(** The abbreviated days of a list of entries, if all can be read. *)
Fixpoint dias_de (horarios : list string) : erro + list string :=
  match horarios with
  | [] => inr []
  | horario :: horarios =>
      match dia_abreviado horario with
      | inl e => inl e
      | inr d =>
          match dias_de horarios with
          | inl e => inl e
          | inr ds => inr (d :: ds)
          end
      end
  end.

(** The dictionary the first loop holds once the days [ds] were registered:
    a key for each distinct day, in the order of first appearance, with the
    day repeated as often as it occurs. *)
Definition tabela (ds : list string) : dicionario :=
  (λ d, (d, replicate (contar d ds) d)) <$> pd.keep_first [] ds.

End Horarios.


(** ** Vocabulary of the statements *)

(** What an optional argument contributes when the code tests it with
    [if arg:]: nothing for [None], for the empty string and for zero. *)
Definition dado_str (o : option string) : option string :=
  o ≫= λ s, if decide (s = "") then None else Some s.

Definition dado_int (o : option Z) : option Z :=
  o ≫= λ z, if decide (z = 0) then None else Some z.

(** [s] followed by [sep] and the argument, when the argument is given. *)
Definition com_sufixo (s sep : string) (o : option string) : string :=
  match dado_str o with Some x => s +:+ sep +:+ x | None => s end.

(** The value a payload holds under a key, if it is a dictionary that has
    the key. *)
Definition campo (j : json) (k : string) : option json :=
  match j with JObj m => m !! k | _ => None end.

(** The detail result read off a provider answer: the ['result'] member of
    a body whose status is OK, the empty dictionary in every other case. *)
Definition resposta_detalhes (r : exn + json) : json :=
  match r with
  | inr (JObj m) =>
      match m !! "status", m !! "result" with
      | Some status, Some result =>
          if py_eq_str status "OK" then result else JObj ∅
      | _, _ => JObj ∅
      end
  | _ => JObj ∅
  end.

(** Number of requests of a log that went to [url]. *)
Definition contagem (url : string) (log : list request) : nat :=
  length (filter (λ r : request, r.1 = url) log).


(** The parameters of the next page request in a given state of the loop. *)
Definition proximos_params (l : locais) : gmap string json :=
  if py_bool (next_page_token l)
  then <["pagetoken" := next_page_token l]> (params l) else params l.

(** A hit whose optional ['geometry'] and ['location'] members are
    dictionaries, so that reading the coordinates does not raise. *)
Definition geometria_ok (m : gmap string json) : bool :=
  match m !! "geometry" with
  | None => true
  | Some (JObj g) =>
      match g !! "location" with
      | None | Some (JObj _) => true
      | Some _ => false
      end
  | Some _ => false
  end.

(** The continuation token of a page, [None] when it has none. *)
Definition token_de (dados : json) : json :=
  default JNull (campo dados "next_page_token").

(** A hit that can be read without an exception: a dictionary whose
    geometry, if any, is well formed. *)
Definition resultado_bem_formado (resultado : json) : bool :=
  match resultado with JObj m => geometria_ok m | _ => false end.

(** A page with status OK whose ['results'] is a list of well-formed hits. *)
Definition pagina_bem_formada (dados : json) : bool :=
  match dados with
  | JObj m =>
      bool_decide (m !! "status" = Some (JStr "OK"))
      && match m !! "results" with
         | Some (JList itens) => forallb resultado_bem_formado itens
         | _ => false
         end
  | _ => false
  end.

(** A detail result the caller can read: a dictionary, or a value that
    counts as false. *)
Definition objeto_ou_vazio (d : json) : bool :=
  match d with JObj _ => true | d => negb (py_bool d) end.

Definition detalhes_bem_formados (r : exn + json) : bool :=
  objeto_ou_vazio (resposta_detalhes r).

(** The detail request issued for a hit. *)
Definition requisicao_detalhes (env : Env) (resultado : json) : request :=
  (detalhes_url,
   detalhes_params env (default NA (campo resultado "place_id"))).

(** The row of a hit handled in world [w]: name and address from the hit,
    phone and website from the detail result, ["N/A"] for what is absent. *)
Definition linha (env : Env) (campo_endereco : string) (resultado : json)
    (w : World) : ResultRow :=
  let detalhes :=
    resposta_detalhes
      (provider env (requests w) (requisicao_detalhes env resultado)) in
  {| Nome := default NA (campo resultado "name");
     Endereco := default NA (campo resultado campo_endereco);
     Telefone := default NA (campo detalhes "formatted_phone_number");
     Website := default NA (campo detalhes "website") |}.

(** The rows of a list of hits handled one after the other from [w]. *)
Fixpoint linhas (env : Env) (campo_endereco : string) (itens : list json)
    (w : World) : list ResultRow :=
  match itens with
  | [] => []
  | resultado :: itens =>
      linha env campo_endereco resultado w
      :: linhas env campo_endereco itens
           (log_request (requisicao_detalhes env resultado) w)
  end.

Definition com_requisicoes (rs : list request) (w : World) : World :=
  {| requests := requests w ++ rs; files := files w |}.

Definition com_resultados (rs : list ResultRow) (l : locais) : locais :=
  {| params := params l; resultados := resultados l ++ rs;
     next_page_token := next_page_token l |}.


(** A detail body with the ['name'] member of its result object removed. *)
Definition sem_nome (dados : json) : json :=
  match dados with
  | JObj m =>
      match m !! "result" with
      | Some (JObj d) => JObj (<["result" := JObj (delete "name" d)]> m)
      | _ => dados
      end
  | _ => dados
  end.

(** Two environments with the same key whose providers give the same
    answers, up to the name inside the detail results. *)
Definition mesmo_a_menos_do_nome (env1 env2 : Env) : Prop :=
  API_KEY env1 = API_KEY env2
  ∧ ∀ log req,
      if decide (req.1 = detalhes_url)
      then sum_map id sem_nome (provider env1 log req)
           = sum_map id sem_nome (provider env2 log req)
      else provider env1 log req = provider env2 log req.

(** The cells of an exported row. *)
Definition export_row (r : ResultRow) : list json :=
  [Endereco r; Nome r; JStr ""; Telefone r; Website r].

(** A request a search with the initial parameters [params0] may send: a
    page request with these parameters, a page request with a continuation
    token added to them, or a detail request. *)
Definition requisicao_da_busca (env : Env) (url : string)
    (params0 : gmap string json) (r : request) : Prop :=
  r = (url, params0)
  ∨ (∃ t, py_bool t = true ∧ r = (url, <["pagetoken" := t]> params0))
  ∨ (∃ place_id, r = (detalhes_url, detalhes_params env place_id)).

(** The parameters the loop of a search holds: the initial ones, possibly
    with a token added. *)
Definition params_da_busca (params0 p : gmap string json) : Prop :=
  p = params0 ∨ ∃ t, py_bool t = true ∧ p = <["pagetoken" := t]> params0.

(** The sheet of a list of rows. *)
Definition planilha_de (rs : list ResultRow) : pd.DataFrame :=
  {| pd.columns := export_columns; pd.values := export_row <$> rs |}.

(** A frame has the column [antiga], which the exporter renames to [nova],
    or a column that bears the new label already. *)
Definition tem_coluna (df : pd.DataFrame) (antiga nova : string) : Prop :=
  antiga ∈ pd.columns df ∨ nova ∈ pd.columns df.

(** The frames the exporter can lay out. *)
Definition exportavel (df : pd.DataFrame) : Prop :=
  tem_coluna df "Endereço" "REGIAO"
  ∧ tem_coluna df "Nome" "NOME DA EMPRESA"
  ∧ tem_coluna df "Telefone" "TELEFONE"
  ∧ tem_coluna df "Website" "SITE".





(** ** Providers used to exercise the statements *)

Module Exemplo.

(** A provider that follows a script: one answer for geocoding, the answers
    of the two search endpoints page after page (a transport failure once
    the script is over), a detail answer per place identifier, and a
    transport failure for any other address. *)
Definition roteiro (geocode : exn + json) (text nearby : list (exn + json))
    (detalhes : json → exn + json) (log : list request) (req : request)
  : exn + json :=
  if decide (req.1 = geocode_url) then geocode
  else if decide (req.1 = BASE_URL)
  then default (inl RequestException) (text !! contagem BASE_URL log)
  else if decide (req.1 = nearby_url)
  then default (inl RequestException) (nearby !! contagem nearby_url log)
  else if decide (req.1 = detalhes_url)
  then detalhes (default JNull (req.2 !! "place_id"))
  else inl RequestException.

Definition mundo_inicial : World := {| requests := []; files := ∅ |}.

Definition resultado (nome endereco place_id : string) : json :=
  JObj {[ "name" := JStr nome; "formatted_address" := JStr endereco;
          "vicinity" := JStr endereco; "place_id" := JStr place_id ]}.

Definition pagina_OK (resultados : list json) (token : option string) : json :=
  JObj (let m : gmap string json :=
          {[ "status" := JStr "OK"; "results" := JList resultados ]} in
        match token with
        | Some t => <["next_page_token" := JStr t]> m
        | None => m
        end).

Definition geocode_OK (lat lng : Z) : json :=
  JObj {[ "status" := JStr "OK";
          "results" :=
            JList [JObj {[ "geometry" :=
                     JObj {[ "location" :=
                       JObj {[ "lat" := JInt lat; "lng" := JInt lng ]} ]} ]}] ]}.

Definition detalhes_acme (place_id : json) : exn + json :=
  if decide (place_id = JStr "p1") then
    inr (JObj {[ "status" := JStr "OK";
                 "result" := JObj {[ "name" := JStr "ACME LTDA";
                                     "formatted_phone_number" := JStr "555-0100";
                                     "website" := JStr "acme.example" ]} ]})
  else inr (JObj {[ "status" := JStr "NOT_FOUND" ]}).

(** The end-to-end scenario: one text-search hit, and two nearby-search
    pages that bring the same business again and a new one. *)
Definition acme : Env :=
  {| provider :=
       roteiro (inr (geocode_OK 39 (-89)))
         [inr (pagina_OK [resultado "Acme Ltda" "Main St" "p1"] None)]
         [inr (pagina_OK [resultado "Acme Ltda" "Main St" "p1"] (Some "T1"));
          inr (pagina_OK [resultado "Acme Parts" "2nd St" "p2"] None)]
         detalhes_acme;
     API_KEY := JStr "chave";
     py_repr := λ _, "";
     excel_error := λ _ _, None |}.

(** Geocoding finds nothing. *)
Definition sem_coordenadas : Env :=
  {| provider :=
       roteiro (inr (JObj {[ "status" := JStr "ZERO_RESULTS";
                             "results" := JList [] ]})) [] [] detalhes_acme;
     API_KEY := JStr "chave";
     py_repr := λ _, "";
     excel_error := λ _ _, None |}.




(** The scenario of [acme] with another name in the detail result. *)
Definition detalhes_outro_nome (place_id : json) : exn + json :=
  if decide (place_id = JStr "p1") then
    inr (JObj {[ "status" := JStr "OK";
                 "result" := JObj {[ "name" := JStr "OUTRO NOME";
                                     "formatted_phone_number" := JStr "555-0100";
                                     "website" := JStr "acme.example" ]} ]})
  else inr (JObj {[ "status" := JStr "NOT_FOUND" ]}).

Definition acme_outro_nome : Env :=
  {| provider :=
       roteiro (inr (geocode_OK 39 (-89)))
         [inr (pagina_OK [resultado "Acme Ltda" "Main St" "p1"] None)]
         [inr (pagina_OK [resultado "Acme Ltda" "Main St" "p1"] (Some "T1"));
          inr (pagina_OK [resultado "Acme Parts" "2nd St" "p2"] None)]
         detalhes_outro_nome;
     API_KEY := JStr "chave";
     py_repr := λ _, "";
     excel_error := λ _ _, None |}.



(** The scenario of [acme] with a workbook writer that refuses the table. *)
Definition escrita_recusada : Env :=
  {| provider := provider acme;
     API_KEY := JStr "chave";
     py_repr := λ _, "";
     excel_error := λ _ _, Some (Excecao "IllegalCharacterError") |}.

(** Every request is answered with an empty page that announces a further
    page. *)
Definition sem_fim : Env :=
  {| provider := λ _ _, inr (pagina_OK [] (Some "T"));
     API_KEY := JStr "chave";
     py_repr := λ _, "";
     excel_error := λ _ _, None |}.

(** The two rows of the end-to-end scenario. *)
Definition linha_acme : ResultRow :=
  {| Nome := JStr "Acme Ltda"; Endereco := JStr "Main St";
     Telefone := JStr "555-0100"; Website := JStr "acme.example" |}.


(** The opening hours of a week, one entry per day. *)
Definition semana : list string :=
  ["Monday: 8:00 AM - 6:00 PM"; "Tuesday: 8:00 AM - 6:00 PM";
   "Wednesday: 8:00 AM - 6:00 PM"; "Thursday: 8:00 AM - 6:00 PM";
   "Friday: 8:00 AM - 6:00 PM"; "Saturday: Closed"; "Sunday: Closed"].

(** Shop hours that list a day once per shift. *)
Definition dois_turnos : list string :=
  ["Monday: 8:00 AM - 12:00 PM"; "Monday: 2:00 PM - 6:00 PM";
   "Tuesday: 8:00 AM - 12:00 PM"].

End Exemplo.

(** * Properties *)

(** Unfolds the sequencing of the script's steps. *)
Ltac run :=
  unfold local, update, lift, try_except, liftE, gets, modify,
    mbind, M_bind, exn_bind, mret, M_ret, exn_ret;
  cbn beta iota zeta delta [fst snd].

Lemma dado_str_Some o s : dado_str o = Some s → o = Some s.
Proof. destruct o as [x|]; simpl; [|done]. by case_decide. Qed.

Lemma dado_int_Some o z : dado_int o = Some z → o = Some z.
Proof. destruct o as [x|]; simpl; [|done]. by case_decide. Qed.

Lemma py_bool_opt_str o :
  py_bool (py_opt_str o) = bool_decide (is_Some (dado_str o)).
Proof.
  destruct o as [s|];
    cbn [py_opt_str from_option py_bool dado_str mbind option_bind];
    [|by rewrite bool_decide_false by (by intros [??])].
  destruct (decide (s = "")) as [->|Hs].
  - by rewrite bool_decide_true, bool_decide_false by (done || by intros [??]).
  - by rewrite bool_decide_false, bool_decide_true by eauto.
Qed.

Lemma py_bool_opt_int o :
  py_bool (py_opt_int o) = bool_decide (is_Some (dado_int o)).
Proof.
  destruct o as [z|];
    cbn [py_opt_int from_option py_bool dado_int mbind option_bind];
    [|by rewrite bool_decide_false by (by intros [??])].
  destruct (decide (z = 0)) as [->|Hs].
  - by rewrite bool_decide_true, bool_decide_false by (done || by intros [??]).
  - by rewrite bool_decide_false, bool_decide_true by eauto.
Qed.

(** ** The effectful steps, one by one *)

Lemma com_requisicoes_app rs1 rs2 w :
  com_requisicoes rs2 (com_requisicoes rs1 w) = com_requisicoes (rs1 ++ rs2) w.
Proof. unfold com_requisicoes. simpl. by rewrite app_assoc. Qed.

Lemma log_request_com_requisicoes r w : log_request r w = com_requisicoes [r] w.
Proof. done. Qed.

Section Steps.

Context (env : Env).

Lemma obter_detalhes_run place_id w :
  let req := (detalhes_url, detalhes_params env place_id) in
  obter_detalhes_por_place_id env place_id w
  = Done (resposta_detalhes (provider env (requests w) req)) (log_request req w).
Proof.
  unfold obter_detalhes_por_place_id, requests_get_json. run.
  destruct (provider env (requests w) _) as [e|[| | | | | |m]]; try done.
  simpl. destruct (m !! "status") as [st|]; simpl; [|done].
  destruct (py_eq_str st "OK"); simpl; [|by destruct (m !! "result")].
  by destruct (m !! "result").
Qed.

(** What handling one hit does, in full. *)
Lemma processar_resultado_run campo_endereco resultado w l :
  processar_resultado env campo_endereco resultado (w, l)
  = match resultado with
    | JObj m =>
        if geometria_ok m then
          let req :=
            (detalhes_url, detalhes_params env (default NA (m !! "place_id"))) in
          match extrair_contato
                  (resposta_detalhes (provider env (requests w) req)) with
          | inr contato =>
              Done () (log_request req w,
                       append_resultado
                         {| Nome := default NA (m !! "name");
                            Endereco := default NA (m !! campo_endereco);
                            Telefone := contato.1.1;
                            Website := contato.1.2 |} l)
          | inl e => Raised e (log_request req w, l)
          end
        else Raised AttributeError (w, l)
    | _ => Raised AttributeError (w, l)
    end.
Proof.
  unfold processar_resultado.
  destruct resultado as [| | | | | |m]; try done.
  run. unfold geometria_ok. simpl.
  destruct (m !! "geometry") as [[| | | | | |g]|]; simpl; try done.
  - destruct (g !! "location") as [[| | | | | |loc]|]; simpl; try done.
    + rewrite obter_detalhes_run. simpl. by destruct (extrair_contato _).
    + rewrite obter_detalhes_run. simpl. by destruct (extrair_contato _).
  - rewrite lookup_empty. simpl.
    rewrite obter_detalhes_run. simpl. by destruct (extrair_contato _).
Qed.

(** The search loop, unfolded. *)
Lemma buscar_run url campo_endereco params0 fuel w :
  buscar env url campo_endereco params0 fuel w
  = match paginar env url campo_endereco fuel (w, inicio params0) with
    | Done _ s | Raised _ s => Done (pd.from_records (resultados s.2)) s.1
    | OutOfFuel => OutOfFuel
    end.
Proof. unfold buscar. run. by destruct (paginar _ _ _ _ _). Qed.

Lemma paginar_S url campo_endereco fuel s :
  paginar env url campo_endereco (S fuel) s
  = match pagina env url campo_endereco s with
    | Done true s' => paginar env url campo_endereco fuel s'
    | Done false s' => Done () s'
    | Raised e s' => Raised e s'
    | OutOfFuel => OutOfFuel
    end.
Proof. simpl. run. by destruct (pagina _ _ _ _) as [[] ?| |]. Qed.


Lemma pagina_run url campo_endereco w l :
  pagina env url campo_endereco (w, l)
  = let l1 := if py_bool (next_page_token l)
              then set_pagetoken (next_page_token l) l else l in
    let req := (url, proximos_params l) in
    let s1 := (log_request req w, l1) in
    match provider env (requests w) req with
    | inl e => Raised e s1
    | inr dados =>
        match py_getitem dados "status" with
        | inl e => Raised e s1
        | inr status =>
            if py_eq_str status "OK" then
              match py_getitem dados "results" with
              | inl e => Raised e s1
              | inr results =>
                  match py_iter results with
                  | inl e => Raised e s1
                  | inr itens =>
                      match for_each (processar_resultado env campo_endereco)
                              itens s1 with
                      | Done _ s =>
                          Done (py_bool (token_de dados))
                            (s.1, set_next_page_token (token_de dados) s.2)
                      | Raised e s => Raised e s
                      | OutOfFuel => OutOfFuel
                      end
                  end
              end
            else Done false s1
        end
    end.
Proof.
  unfold pagina, requests_get_json, proximos_params. run.
  destruct (py_bool (next_page_token l)); run; cbn [params set_pagetoken].
  all: destruct (provider env _ _) as [e|dados]; [done|].
  all: destruct (py_getitem dados "status") as [e|status] eqn:Hst; [done|].
  all: destruct (py_eq_str status "OK"); [|done].
  all: destruct (py_getitem dados "results") as [e|results]; [done|].
  all: destruct (py_iter results) as [e|itens]; [done|].
  all: destruct (for_each _ _ _) as [[] s| |]; [|done..].
  all: destruct dados; try done.
Qed.


Lemma extrair_contato_campo detalhes :
  objeto_ou_vazio detalhes = true →
  extrair_contato detalhes
  = inr (default NA (campo detalhes "formatted_phone_number"),
         default NA (campo detalhes "website"),
         default NA (campo detalhes "name")).
Proof.
  intros Hd. unfold extrair_contato.
  destruct (py_bool detalhes) eqn:Hb.
  - destruct detalhes; try done; unfold objeto_ou_vazio in Hd;
      by rewrite Hb in Hd.
  - destruct detalhes as [| | | | | |m]; try done.
    simpl in Hb. apply negb_false_iff, bool_decide_eq_true in Hb as ->.
    simpl. by rewrite !lookup_empty.
Qed.

Lemma processar_bem_formado campo_endereco resultado w l :
  resultado_bem_formado resultado = true →
  detalhes_bem_formados
    (provider env (requests w) (requisicao_detalhes env resultado)) = true →
  processar_resultado env campo_endereco resultado (w, l)
  = Done () (log_request (requisicao_detalhes env resultado) w,
             append_resultado (linha env campo_endereco resultado w) l).
Proof.
  intros Hwf Hdet. rewrite processar_resultado_run.
  destruct resultado as [| | | | | |m]; try done. simpl in Hwf. rewrite Hwf.
  cbn zeta. unfold detalhes_bem_formados, requisicao_detalhes in Hdet.
  cbn [campo] in Hdet. by rewrite (extrair_contato_campo _ Hdet).
Qed.

Lemma for_each_bem_formados campo_endereco itens w l :
  Forall (λ r, resultado_bem_formado r = true) itens →
  (∀ log p, detalhes_bem_formados (provider env log (detalhes_url, p)) = true) →
  for_each (processar_resultado env campo_endereco) itens (w, l)
  = Done () (com_requisicoes (requisicao_detalhes env <$> itens) w,
             com_resultados (linhas env campo_endereco itens w) l).
Proof.
  intros Hwf Hdet. revert w l.
  induction Hwf as [|r itens Hr _ IH]; intros w l; simpl.
  - run. unfold com_requisicoes, com_resultados. rewrite !app_nil_r.
    destruct w, l; reflexivity.
  - run. rewrite processar_bem_formado by (done || apply Hdet). rewrite IH.
    unfold com_requisicoes, com_resultados, log_request, append_resultado.
    simpl. by rewrite <-!app_assoc.
Qed.


Lemma filter_requisicao_detalhes url itens :
  url ≠ detalhes_url →
  filter (λ r : request, r.1 = url) (requisicao_detalhes env <$> itens) = [].
Proof.
  intros Hurl. induction itens as [|r itens IH]; [done|].
  rewrite fmap_cons, filter_cons_False; [done|]. simpl. congruence.
Qed.

Lemma contagem_app url l1 l2 :
  contagem url (l1 ++ l2) = (contagem url l1 + contagem url l2)%nat.
Proof. unfold contagem. by rewrite filter_app, length_app. Qed.

Lemma contagem_requisicao_detalhes url itens :
  url ≠ detalhes_url → contagem url (requisicao_detalhes env <$> itens) = 0%nat.
Proof.
  intros Hurl. unfold contagem. induction itens as [|r itens IH]; [done|].
  rewrite fmap_cons, filter_cons_False; [done|]. simpl. congruence.
Qed.

Lemma proximos_params_insert l t :
  <["pagetoken" := t]> (proximos_params l) = <["pagetoken" := t]> (params l).
Proof.
  unfold proximos_params. destruct (py_bool _); [|done].
  apply insert_insert_eq.
Qed.

Lemma pagina_bem_formada_inv dados :
  pagina_bem_formada dados = true →
  ∃ itens,
    py_getitem dados "status" = inr (JStr "OK")
    ∧ py_getitem dados "results" = inr (JList itens)
    ∧ Forall (λ r, resultado_bem_formado r = true) itens.
Proof.
  destruct dados as [| | | | | |m]; try done. simpl.
  intros [Hst Hres]%andb_true_iff. apply bool_decide_eq_true in Hst.
  rewrite Hst. destruct (m !! "results") as [[| | | | |itens|]|]; try done.
  exists itens. split_and!; try done. clear -Hres.
  induction itens as [|r itens IH]; [constructor|]. simpl in Hres.
  apply andb_true_iff in Hres as [??]. constructor; auto.
Qed.

Lemma paginar_paginas url campo_endereco paginas fuel w l :
  url ≠ detalhes_url →
  (∀ log p, detalhes_bem_formados (provider env log (detalhes_url, p)) = true) →
  Forall (λ d, pagina_bem_formada d = true) paginas →
  (∀ i dados, paginas !! i = Some dados →
     py_bool (token_de dados) = bool_decide (S i < length paginas)%nat) →
  (∀ i dados log p, paginas !! i = Some dados →
     contagem url log = (contagem url (requests w) + i)%nat →
     provider env log (url, p) = inr dados) →
  paginas ≠ [] → (length paginas ≤ fuel)%nat →
  ∃ s',
    paginar env url campo_endereco fuel (w, l) = Done () s'
    ∧ filter (λ r : request, r.1 = url) (requests s'.1)
      = filter (λ r : request, r.1 = url) (requests w)
        ++ (url, proximos_params l)
           :: ((λ t, (url, <["pagetoken" := t]> (params l)))
                 <$> take (length paginas - 1) (token_de <$> paginas))
    ∧ files s'.1 = files w.
Proof.
  intros Hurl Hdet Hwf. revert fuel w l.
  induction Hwf as [|dados resto Hdados Hresto IH];
    intros fuel w l Htok Hprov Hne Hfuel; [done|].
  destruct fuel as [|fuel]; [simpl in Hfuel; lia|].
  rewrite paginar_S, pagina_run. cbn zeta.
  rewrite (Hprov 0%nat dados) by (done || lia).
  destruct (pagina_bem_formada_inv _ Hdados) as (itens & -> & -> & Hitens).
  unfold py_eq_str. rewrite bool_decide_true by done.
  cbn [py_iter]. rewrite for_each_bem_formados by done. cbn [fst snd].
  rewrite (Htok 0%nat dados) by done.
  assert (filter (λ r : request, r.1 = url)
            (requests (com_requisicoes (requisicao_detalhes env <$> itens)
               (log_request (url, proximos_params l) w)))
          = filter (λ r : request, r.1 = url) (requests w)
              ++ [(url, proximos_params l)]) as Hlog.
  { simpl. rewrite !filter_app, filter_requisicao_detalhes by done.
    rewrite app_nil_r. f_equal. by rewrite filter_cons_True. }
  destruct resto as [|dados' resto'].
  - rewrite bool_decide_false by (simpl; lia).
    eexists. split; [done|]. cbn [fst snd]. by rewrite Hlog.
  - rewrite bool_decide_true by (simpl; lia).
    set (w2 := com_requisicoes _ _) in *. set (l2 := set_next_page_token _ _).
    destruct (IH fuel w2 l2) as (s' & Hrun & Hreqs & Hfiles).
    + intros i d Hi. rewrite (Htok (S i) d Hi).
      apply bool_decide_ext. simpl. lia.
    + intros i d log p Hi Hcount. apply (Hprov (S i)); [done|].
      rewrite Hcount. subst w2. cbn [requests com_requisicoes log_request].
      rewrite !contagem_app, contagem_requisicao_detalhes by done.
      unfold contagem at 2. rewrite filter_cons_True by done. simpl. lia.
    + done.
    + simpl in *. lia.
    + exists s'. split; [done|]. split; [|by rewrite Hfiles].
      assert (∀ t, <["pagetoken" := t]>
                (params (if py_bool (next_page_token l)
                         then set_pagetoken (next_page_token l) l else l))
              = <["pagetoken" := t]> (params l)) as Hins.
      { intros t. destruct (py_bool (next_page_token l)); [|done].
        cbn [set_pagetoken params]. by rewrite insert_insert_eq. }
      assert (proximos_params l2 = <["pagetoken" := token_de dados]> (params l))
        as Hpp.
      { unfold proximos_params. subst l2.
        cbn [next_page_token set_next_page_token params com_resultados].
        rewrite (Htok 0%nat dados) by done.
        rewrite bool_decide_true by (simpl; lia). apply Hins. }
      rewrite Hreqs, Hlog, <-app_assoc, Hpp. subst l2.
      cbn [next_page_token set_next_page_token params com_resultados].
      cbn [length fmap list_fmap].
      replace (S (S (length resto')) - 1)%nat with (S (S (length resto') - 1))
        by lia.
      cbn [take fmap list_fmap app]. do 3 f_equal.
      apply list_fmap_ext. intros i t _. by rewrite Hins.
Qed.

(** What a completed and an interrupted pass leave behind. *)
Lemma extrair_contato_inr detalhes contato :
  extrair_contato detalhes = inr contato →
  contato = (default NA (campo detalhes "formatted_phone_number"),
             default NA (campo detalhes "website"),
             default NA (campo detalhes "name")).
Proof.
  unfold extrair_contato. destruct (py_bool detalhes) eqn:Hb.
  - destruct detalhes; try done. simpl. by intros [= <-].
  - intros [= <-]. destruct detalhes as [| | | | | |m]; try done.
    simpl in Hb. apply negb_false_iff, bool_decide_eq_true in Hb as ->.
    simpl. by rewrite !lookup_empty.
Qed.

Lemma processar_Done campo_endereco resultado w l s' :
  processar_resultado env campo_endereco resultado (w, l) = Done () s' →
  s' = (log_request (requisicao_detalhes env resultado) w,
        append_resultado (linha env campo_endereco resultado w) l).
Proof.
  rewrite processar_resultado_run.
  destruct resultado as [| | | | | |m]; try done.
  destruct (geometria_ok m); [|done]. cbn zeta.
  destruct (extrair_contato _) as [e|contato] eqn:Hc; [done|].
  intros [= <-]. apply extrair_contato_inr in Hc as ->. done.
Qed.

Lemma processar_Raised campo_endereco resultado w l e s' :
  processar_resultado env campo_endereco resultado (w, l) = Raised e s' →
  s'.2 = l.
Proof.
  rewrite processar_resultado_run.
  destruct resultado as [| | | | | |m]; try by intros [= <- <-].
  destruct (geometria_ok m); [|by intros [= <- <-]]. cbn zeta.
  destruct (extrair_contato _) as [e'|contato]; [|done]. by intros [= <- <-].
Qed.

Lemma for_each_Done campo_endereco itens w l s' :
  for_each (processar_resultado env campo_endereco) itens (w, l) = Done () s' →
  s' = (com_requisicoes (requisicao_detalhes env <$> itens) w,
        com_resultados (linhas env campo_endereco itens w) l).
Proof.
  revert w l. induction itens as [|r itens IH]; intros w l; simpl.
  - run. intros [= <-]. unfold com_requisicoes, com_resultados.
    rewrite !app_nil_r. destruct w, l; reflexivity.
  - run. destruct (processar_resultado _ _ _ _) as [[] s1| |] eqn:Hr; try done.
    apply processar_Done in Hr as ->. intros ->%IH.
    unfold com_requisicoes, com_resultados, log_request, append_resultado.
    simpl. by rewrite <-!app_assoc.
Qed.

Lemma for_each_Raised campo_endereco itens w l e s' :
  for_each (processar_resultado env campo_endereco) itens (w, l) = Raised e s' →
  ∃ antes x depois,
    itens = antes ++ x :: depois
    ∧ processar_resultado env campo_endereco x
        (com_requisicoes (requisicao_detalhes env <$> antes) w,
         com_resultados (linhas env campo_endereco antes w) l) = Raised e s'
    ∧ s'.2 = com_resultados (linhas env campo_endereco antes w) l.
Proof.
  revert w l. induction itens as [|r itens IH]; intros w l; simpl; [done|].
  run. destruct (processar_resultado _ _ _ _) as [[] s1|e1 s1|] eqn:Hr; try done.
  - apply processar_Done in Hr as ->. intros Hrest.
    destruct (IH _ _ Hrest) as (antes & x & depois & -> & Hx & Hs').
    exists (r :: antes), x, depois. split; [done|].
    assert (∀ rs : list request,
              com_requisicoes rs (log_request (requisicao_detalhes env r) w)
              = com_requisicoes (requisicao_detalhes env r :: rs) w) as Hcr.
    { intros rs. unfold com_requisicoes, log_request. simpl.
      by rewrite <-app_assoc. }
    assert (∀ a rs, com_resultados rs (append_resultado a l)
            = com_resultados (a :: rs) l) as Hcl.
    { intros a rs. unfold com_resultados, append_resultado. simpl.
      by rewrite <-app_assoc. }
    rewrite Hcr, Hcl in Hx. rewrite Hcl in Hs'. done.
  - intros [= <- <-]. exists [], r, itens. split; [done|].
    assert (com_requisicoes [] w = w) as Hw by
      (unfold com_requisicoes; rewrite app_nil_r; destruct w; reflexivity).
    assert (com_resultados [] l = l) as Hl by
      (unfold com_resultados; rewrite app_nil_r; destruct l; reflexivity).
    cbn [fmap list_fmap linhas]. rewrite Hw, Hl.
    split; [done|]. by eapply processar_Raised.
Qed.





(** The requests of a search are appended to the log, the page request
    first. *)
Lemma processar_Raised_mundo campo_endereco resultado w l e s' :
  processar_resultado env campo_endereco resultado (w, l) = Raised e s' →
  ∃ rs, s'.1 = com_requisicoes rs w.
Proof.
  rewrite processar_resultado_run.
  assert (w = com_requisicoes [] w) as Hw.
  { unfold com_requisicoes. rewrite app_nil_r. by destruct w. }
  destruct resultado as [| | | | | |m]; try (intros [= <- <-]; by exists []).
  destruct (geometria_ok m); [|intros [= <- <-]; by exists []]. cbn zeta.
  destruct (extrair_contato _) as [e'|contato]; [|done].
  intros [= <- <-]. by eexists [_].
Qed.

Lemma pagina_requests url campo_endereco w l :
  match pagina env url campo_endereco (w, l) with
  | Done _ s' | Raised _ s' =>
      ∃ rs, s'.1 = com_requisicoes ((url, proximos_params l) :: rs) w
  | OutOfFuel => False
  end.
Proof.
  rewrite pagina_run. cbn zeta.
  set (l1 := if py_bool _ then _ else _). set (req := (url, _)).
  destruct (provider env _ _) as [e1|dados]; [by exists []|].
  destruct (py_getitem dados "status") as [e1|status]; [by exists []|].
  destruct (py_eq_str status "OK"); [|by exists []].
  destruct (py_getitem dados "results") as [e1|results]; [by exists []|].
  destruct (py_iter results) as [e1|itens]; [by exists []|].
  destruct (for_each _ _ _) as [[] s1|e1 s1|] eqn:Hfor.
  - apply for_each_Done in Hfor as ->. cbn [fst].
    rewrite log_request_com_requisicoes, com_requisicoes_app. eauto.
  - apply for_each_Raised in Hfor as (antes & x & depois & -> & Hx & _).
    apply processar_Raised_mundo in Hx as [rs ->].
    rewrite log_request_com_requisicoes, !com_requisicoes_app.
    rewrite <-?app_assoc. simpl. eauto.
  - clear -Hfor. revert Hfor. generalize (log_request req w, l1).
    induction itens as [|r itens IH]; intros s; simpl; [done|]. run.
    destruct s as [w0 l0]. rewrite processar_resultado_run.
    destruct r as [| | | | | |m]; try done.
    destruct (geometria_ok m); [|done]. cbn zeta.
    destruct (extrair_contato _); [done|]. apply IH.
Qed.

Lemma paginar_requests url campo_endereco fuel s :
  match paginar env url campo_endereco fuel s with
  | Done _ s' | Raised _ s' => ∃ rs, s'.1 = com_requisicoes rs s.1
  | OutOfFuel => True
  end.
Proof.
  revert s. induction fuel as [|fuel IH]; intros [w l]; [done|].
  rewrite paginar_S. pose proof (pagina_requests url campo_endereco w l) as Hp.
  destruct (pagina _ _ _ _) as [[] s1|e1 s1|]; try done; cbn [fst].
  - destruct Hp as [rs Hs1]. specialize (IH s1).
    destruct (paginar _ _ _ _ _) as [[] s2|e2 s2|]; try done.
    all: destruct IH as [rs' Hs2]; rewrite Hs2, Hs1, com_requisicoes_app;
      eauto.
  - destruct Hp as [rs Hs1]. eauto.
  - destruct Hp as [rs Hs1]. eauto.
Qed.

Lemma buscar_primeira_requisicao url campo_endereco params0 fuel w df w' :
  buscar env url campo_endereco params0 (S fuel) w = Done df w' →
  ∃ rs, w' = com_requisicoes ((url, params0) :: rs) w.
Proof.
  rewrite buscar_run, paginar_S.
  pose proof (pagina_requests url campo_endereco w (inicio params0)) as Hp.
  destruct (pagina _ _ _ _) as [[] s1|e1 s1|]; try done.
  - destruct Hp as [rs Hs1].
    pose proof (paginar_requests url campo_endereco fuel s1) as Hrest.
    destruct (paginar _ _ _ _ _) as [[] s2|e2 s2|]; try done.
    all: destruct Hrest as [rs' Hs2]; intros [= <- <-].
    all: rewrite Hs2, Hs1, com_requisicoes_app; eauto.
  - destruct Hp as [rs Hs1]. intros [= <- <-]. eauto.
  - destruct Hp as [rs Hs1]. intros [= <- <-]. eauto.
Qed.

Lemma obter_coordenadas_Done cidade estado w :
  ∃ localizacao,
    obter_coordenadas env cidade estado w
    = Done localizacao
        (log_request (geocode_url, geocode_params env cidade estado) w).
Proof.
  unfold obter_coordenadas, requests_get_json. run.
  destruct (provider env _ _) as [e|dados]; [by eexists|].
  destruct (py_getitem dados "status") as [e|status]; [by eexists|].
  destruct (py_eq_str status "OK"); [|by eexists].
  repeat match goal with
    | |- context [match ?r with inl _ => _ | inr _ => _ end] =>
        destruct r; [by eexists|]
    end.
  by eexists.
Qed.

End Steps.

(** ** Tables *)

Section keep_first.
Context {A : Type} `{EqDecision A}.
Implicit Types seen l : list A.

Lemma elem_of_keep_first seen l x :
  x ∈ pd.keep_first seen l ↔ x ∈ l ∧ x ∉ seen.
Proof.
  revert seen. induction l as [|y l IH]; intros seen; simpl.
  - rewrite elem_of_nil. tauto.
  - destruct (decide (y ∈ seen)).
    + rewrite IH, elem_of_cons. intuition congruence.
    + rewrite elem_of_cons, IH, not_elem_of_cons, elem_of_cons.
      destruct (decide (x = y)) as [->|]; intuition congruence.
Qed.



Lemma keep_first_filter seen l :
  pd.keep_first seen l = filter (λ x, x ∉ seen) (pd.keep_first [] l).
Proof.
  revert seen. induction l as [|x l IH]; intros seen; simpl; [done|].
  rewrite filter_cons. destruct (decide (x ∈ seen)) as [Hx|Hx].
  - rewrite decide_False by auto. rewrite (IH [x]), (IH seen).
    rewrite list_filter_filter. apply list_filter_iff. intros y.
    split; [|tauto]. intros Hy. split; [done|].
    intros ->%list_elem_of_singleton. done.
  - rewrite decide_True by done. f_equal.
    rewrite (IH (x :: seen)), (IH [x]), list_filter_filter.
    apply list_filter_iff. intros y. rewrite !not_elem_of_cons.
    pose proof (not_elem_of_nil y). tauto.
Qed.

Lemma keep_first_app l1 l2 :
  pd.keep_first [] (l1 ++ l2)
  = pd.keep_first [] l1 ++ filter (λ x, x ∉ l1) (pd.keep_first [] l2).
Proof.
  enough (∀ seen, pd.keep_first seen (l1 ++ l2)
            = pd.keep_first seen l1
                ++ filter (λ x, x ∉ l1 ++ seen) (pd.keep_first [] l2)) as Hgen.
  { rewrite Hgen. f_equal. apply list_filter_iff. intros x.
    by rewrite app_nil_r. }
  induction l1 as [|y l1 IH]; intros seen; simpl.
  - apply keep_first_filter.
  - destruct (decide (y ∈ seen)) as [Hy|Hy].
    + rewrite IH. f_equal. apply list_filter_iff. intros x.
      rewrite not_elem_of_cons, !not_elem_of_app.
      split; [|tauto]. intros [??]. split_and!; try done. by intros ->.
    + simpl. rewrite IH. do 2 f_equal. apply list_filter_iff. intros x.
      rewrite ?not_elem_of_cons, ?not_elem_of_app, ?not_elem_of_cons. tauto.
Qed.

Lemma keep_first_fmap {B} `{EqDecision B} (f : A → B) `{!Inj (=) (=) f}
    seen l :
  pd.keep_first (f <$> seen) (f <$> l) = f <$> pd.keep_first seen l.
Proof.
  revert seen. induction l as [|y l IH]; intros seen; simpl; [done|].
  destruct (decide (y ∈ seen)) as [Hy|Hy].
  - rewrite decide_True by (by apply list_elem_of_fmap_inj). apply IH.
  - rewrite decide_False by (by rewrite list_elem_of_fmap_inj).
    simpl. f_equal. apply (IH (y :: seen)).
Qed.



Lemma keep_first_by_nil_iff {B} `{EqDecision B} (key : A → B) l :
  pd.keep_first_by key [] l = [] ↔ l = [].
Proof.
  destruct l as [|x l]; [done|]. cbn [pd.keep_first_by].
  destruct (decide (key x ∈ [])) as [H|_]; [by apply elem_of_nil in H|done].
Qed.

End keep_first.

#[global] Instance row_values_inj : Inj (=) (=) row_values.
Proof. intros [????] [????]; unfold row_values; simpl. congruence. Qed.










(** The exporter on a table of rows: the sheet is handed to the writer. *)
Lemma salvar_resultados_run env rs nome cidade w :
  rs ≠ [] →
  salvar_resultados env (pd.from_records rs) nome cidade w
  = match excel_error env nome (planilha_de rs) with
    | None =>
        Done () {| requests := requests w;
                   files := <[nome := Planilha (planilha_de rs)]> (files w) |}
    | Some e =>
        Raised e {| requests := requests w;
                    files := <[nome := Incompleto]> (files w) |}
    end.
Proof.
  intros Hrs. destruct rs as [|r rs]; [done|].
  unfold salvar_resultados, pd.from_records.
  set (df := pd.setitem _ _ _).
  assert (df = {| pd.columns := ["NOME DA EMPRESA"; "REGIAO"; "TELEFONE";
                                 "SITE"; "NOME DO CONTATO"];
                  pd.values := (λ row, row ++ [JStr ""])
                                 <$> (row_values <$> (r :: rs)) |}) as ->.
  { reflexivity. }
  unfold pd.getitem. rewrite decide_True by (vm_compute; repeat constructor).
  cbn [pd.columns pd.values]. run. unfold to_excel.
  assert ({| pd.columns := export_columns;
             pd.values :=
               pd.reindex
                 ["NOME DA EMPRESA"; "REGIAO"; "TELEFONE"; "SITE";
                  "NOME DO CONTATO"] export_columns
                 <$> ((λ row, row ++ [JStr ""])
                        <$> (row_values <$> (r :: rs))) |}
          = planilha_de (r :: rs)) as ->; [|done].
  unfold planilha_de. f_equal.
  rewrite <-!list_fmap_compose. by apply list_fmap_ext.
Qed.

(** ** Providers that differ in the detail name only *)

Lemma sem_nome_obj_inv j1 j2 :
  sem_nome j1 = sem_nome j2 →
  j1 = j2
  ∨ ∃ m1 m2 d1 d2,
      j1 = JObj m1 ∧ j2 = JObj m2
      ∧ m1 !! "result" = Some (JObj d1) ∧ m2 !! "result" = Some (JObj d2)
      ∧ m1 !! "status" = m2 !! "status"
      ∧ delete "name" d1 = delete "name" d2.
Proof.
  intros Heq.
  destruct j1 as [| | | | | |m1], j2 as [| | | | | |m2]; simpl in Heq;
    try (by left); try done.
  all: try (destruct (m2 !! "result") as [[| | | | | |d2]|]; by (left || done)).
  all: try (destruct (m1 !! "result") as [[| | | | | |d1]|]; by (left || done)).
  destruct (m1 !! "result") as [r1|] eqn:H1, (m2 !! "result") as [r2|] eqn:H2.
  - destruct r1 as [| | | | | |d1], r2 as [| | | | | |d2]; try (by left).
    all: try (injection Heq as Heq;
              apply (f_equal (λ m : gmap string json, m !! "result")) in Heq;
              rewrite ?lookup_insert_eq, ?H1, ?H2 in Heq; done).
    right. exists m1, m2, d1, d2. injection Heq as Heq. split_and!; try done.
    + apply (f_equal (λ m : gmap string json, m !! "status")) in Heq.
      by rewrite !lookup_insert_ne in Heq.
    + apply (f_equal (λ m : gmap string json, m !! "result")) in Heq.
      rewrite !lookup_insert_eq in Heq. congruence.
  - destruct r1 as [| | | | | |d1]; try (by left).
    injection Heq as Heq.
    apply (f_equal (λ m : gmap string json, m !! "result")) in Heq.
    rewrite lookup_insert_eq, H2 in Heq. done.
  - destruct r2 as [| | | | | |d2]; try (by left).
    injection Heq as Heq.
    apply (f_equal (λ m : gmap string json, m !! "result")) in Heq.
    rewrite lookup_insert_eq, H1 in Heq. done.
  - by left.
Qed.

Lemma contato_sem_nome r1 r2 :
  sum_map id sem_nome r1 = sum_map id sem_nome r2 →
  match extrair_contato (resposta_detalhes r1),
        extrair_contato (resposta_detalhes r2) with
  | inr c1, inr c2 => c1.1 = c2.1
  | inl e1, inl e2 => e1 = e2
  | _, _ => False
  end.
Proof.
  destruct r1 as [e1|j1], r2 as [e2|j2]; simpl; try done.
  intros [= Heq]. apply sem_nome_obj_inv in Heq
    as [->|(m1 & m2 & d1 & d2 & -> & -> & H1 & H2 & Hst & Hd)].
  { by destruct (extrair_contato _). }
  simpl. rewrite H1, H2, <-Hst.
  destruct (m1 !! "status") as [st|]; [|done].
  destruct (py_eq_str st "OK"); [|done].
  destruct (extrair_contato (JObj d1)) as [e1|c1] eqn:Hc1.
  { unfold extrair_contato in Hc1. by destruct (py_bool _). }
  destruct (extrair_contato (JObj d2)) as [e2|c2] eqn:Hc2.
  { unfold extrair_contato in Hc2. by destruct (py_bool _). }
  apply extrair_contato_inr in Hc1 as ->, Hc2 as ->. simpl.
  assert (∀ k, k ≠ "name" → d1 !! k = d2 !! k) as Hk.
  { intros k Hne. apply (f_equal (λ m : gmap string json, m !! k)) in Hd.
    by rewrite !lookup_delete_ne in Hd. }
  by rewrite !Hk.
Qed.

Section SemNome.
Context (env1 env2 : Env) (Henv : mesmo_a_menos_do_nome env1 env2).

Lemma processar_sem_nome campo_endereco resultado s :
  processar_resultado env1 campo_endereco resultado s
  = processar_resultado env2 campo_endereco resultado s.
Proof.
  destruct Henv as [Hkey Hprov]. destruct s as [w l].
  rewrite !processar_resultado_run.
  destruct resultado as [| | | | | |m]; try done.
  destruct (geometria_ok m); [|done]. cbn zeta.
  unfold detalhes_params. rewrite Hkey.
  set (req := (detalhes_url, _)).
  specialize (Hprov (requests w) req). rewrite decide_True in Hprov by done.
  apply contato_sem_nome in Hprov.
  destruct (extrair_contato (resposta_detalhes (provider env1 _ _))) as [e1|c1],
    (extrair_contato (resposta_detalhes (provider env2 _ _))) as [e2|c2];
    try done.
  - by subst.
  - destruct c1 as [[??]?], c2 as [[??]?]. simpl in *. by simplify_eq.
Qed.

Lemma for_each_sem_nome campo_endereco itens s :
  for_each (processar_resultado env1 campo_endereco) itens s
  = for_each (processar_resultado env2 campo_endereco) itens s.
Proof.
  revert s. induction itens as [|r itens IH]; intros s; simpl; [done|].
  run. rewrite processar_sem_nome.
  by destruct (processar_resultado env2 _ _ _).
Qed.

Lemma pagina_sem_nome url campo_endereco s :
  url ≠ detalhes_url →
  pagina env1 url campo_endereco s = pagina env2 url campo_endereco s.
Proof.
  intros Hurl. destruct s as [w l]. rewrite !pagina_run. cbn zeta.
  destruct Henv as [Hkey Hprov].
  specialize (Hprov (requests w) (url, proximos_params l)).
  rewrite decide_False in Hprov by done. rewrite Hprov.
  destruct (provider env2 _ _) as [e|dados]; [done|].
  destruct (py_getitem dados "status") as [e|status]; [done|].
  destruct (py_eq_str status "OK"); [|done].
  destruct (py_getitem dados "results") as [e|results]; [done|].
  destruct (py_iter results) as [e|itens]; [done|].
  by rewrite for_each_sem_nome.
Qed.

Lemma paginar_sem_nome url campo_endereco fuel s :
  url ≠ detalhes_url →
  paginar env1 url campo_endereco fuel s = paginar env2 url campo_endereco fuel s.
Proof.
  intros Hurl. revert s. induction fuel as [|fuel IH]; intros s; [done|].
  rewrite !paginar_S, pagina_sem_nome by done.
  destruct (pagina env2 _ _ _) as [[] s'| |]; auto.
Qed.

Lemma buscar_sem_nome url campo_endereco params0 fuel w :
  url ≠ detalhes_url →
  buscar env1 url campo_endereco params0 fuel w
  = buscar env2 url campo_endereco params0 fuel w.
Proof. intros Hurl. by rewrite !buscar_run, paginar_sem_nome. Qed.

End SemNome.

(** ** Request parameters of the text search *)

Lemma textsearch_params_lookup (env : Env) (razao_social : string)
    (localizacao : option string) (raio : option Z)
    (cidade estado : option string) :
  let p := textsearch_params env razao_social localizacao raio cidade estado in
  p !! "query"
    = Some (JStr (com_sufixo (com_sufixo razao_social " in " cidade)
                    ", " estado))
  ∧ p !! "location" = JStr <$> dado_str localizacao
  ∧ p !! "radius" = JInt <$> dado_int raio
  ∧ p !! "key" = Some (API_KEY env)
  ∧ p !! "pagetoken" = None.
Proof.
  unfold textsearch_params, com_sufixo, iadd_str.
  rewrite !py_bool_opt_str, py_bool_opt_int.
  destruct (dado_str localizacao) as [l|] eqn:Hl,
    (dado_int raio) as [r|] eqn:Hr,
    (dado_str cidade) as [c|] eqn:Hc, (dado_str estado) as [e|] eqn:He.
  all: rewrite ?bool_decide_true, ?bool_decide_false
         by (eauto || by intros [??]).
  all: repeat match goal with
         | H : dado_str _ = Some _ |- _ => apply dado_str_Some in H as ->
         | H : dado_int _ = Some _ |- _ => apply dado_int_Some in H as ->
         end.
  all: cbn [from_option default py_opt_str py_opt_int].
  all: split_and!; by simplify_map_eq.
Qed.

(** C10. The text search sends the location and the radius, when given, as
    the [location] and [radius] parameters of its request, and its query is
    the name followed by [" in <cidade>"] and [", <estado>"] for the city and
    the state that are given; the first request the search sends carries
    these parameters.  An argument is given when [if arg:] holds of it. *)
Theorem textsearch_params_spec (env : Env) (razao_social : string)
    (localizacao : option string) (raio : option Z)
    (cidade estado : option string) :
  let p := textsearch_params env razao_social localizacao raio cidade estado in
  p !! "query"
    = Some (JStr (com_sufixo (com_sufixo razao_social " in " cidade)
                    ", " estado))
  ∧ p !! "location" = JStr <$> dado_str localizacao
  ∧ p !! "radius" = JInt <$> dado_int raio
  ∧ p !! "key" = Some (API_KEY env)
  ∧ p !! "pagetoken" = None
  ∧ ∀ fuel w df w',
      buscar_textsearch env (S fuel) razao_social localizacao raio cidade
        estado w = Done df w' →
      ∃ resto, requests w' = requests w ++ (BASE_URL, p) :: resto.
Proof.
  intros p.
  destruct (textsearch_params_lookup env razao_social localizacao raio
              cidade estado) as (Hq & Hl & Hr & Hk & Ht).
  split_and!; try done.
  intros fuel w df w' [rs ->]%buscar_primeira_requisicao. by exists rs.
Qed.

Lemma textsearch_params_witness :
  let p := textsearch_params Exemplo.acme "RAZAO SOCIAL" (Some "39,-89")
             (Some 23000) (Some "Springfield") (Some "IL") in
  p !! "query" = Some (JStr "RAZAO SOCIAL in Springfield, IL")
  ∧ p !! "location" = Some (JStr "39,-89")
  ∧ p !! "radius" = Some (JInt 23000)
  ∧ ∃ df resto,
      buscar_textsearch Exemplo.acme 1 "RAZAO SOCIAL" (Some "39,-89")
        (Some 23000) (Some "Springfield") (Some "IL") Exemplo.mundo_inicial
      = Done df {| requests := (BASE_URL, p) :: resto; files := ∅ |}.
Proof.
  intros p.
  destruct (textsearch_params_spec Exemplo.acme "RAZAO SOCIAL" (Some "39,-89")
              (Some 23000) (Some "Springfield") (Some "IL"))
    as (Hq & Hl & Hr & _ & _ & Hreq).
  fold p in Hq, Hl, Hr, Hreq. rewrite Hq, Hl, Hr. split_and!; try reflexivity.
  destruct (buscar_textsearch Exemplo.acme 1 "RAZAO SOCIAL" (Some "39,-89")
              (Some 23000) (Some "Springfield") (Some "IL")
              Exemplo.mundo_inicial) as [df w'| |] eqn:Hrun;
    [|vm_compute in Hrun; discriminate..].
  destruct (Hreq _ _ _ _ Hrun) as [resto Hw'].
  exists df, resto. f_equal. destruct w' as [reqs fs]. simpl in Hw'. subst reqs.
  f_equal. vm_compute in Hrun. by injection Hrun as _ _ <-.
Defined.

(** ** The detail enricher *)



(** ** The coordinate resolver *)



(** ** The top-level flow without coordinates *)

(** C6. When the resolver returns [None] the run stops there: the only
    request of the whole run is the geocoding one, so no nearby-search and no
    text-search request is issued, and no file is written. *)
Theorem main_sem_coordenadas (env : Env) (fuel : nat) (cidade estado : string)
    (w w' : World) :
  obter_coordenadas env cidade estado w = Done None w' →
  main env fuel cidade estado w = Done () w'
  ∧ requests w' = requests w ++ [(geocode_url, geocode_params env cidade estado)]
  ∧ files w' = files w.
Proof.
  intros Hcoord. split.
  - unfold main. run. by rewrite Hcoord.
  - destruct (obter_coordenadas_Done env cidade estado w) as (l & Hrun).
    rewrite Hrun in Hcoord. by simplify_eq.
Qed.

Lemma main_sem_coordenadas_witness :
  main Exemplo.sem_coordenadas 3 "Atlantida" "ZZ" Exemplo.mundo_inicial
  = Done ()
      (log_request
         (geocode_url, geocode_params Exemplo.sem_coordenadas "Atlantida" "ZZ")
         Exemplo.mundo_inicial).
Proof.
  apply (main_sem_coordenadas Exemplo.sem_coordenadas 3 "Atlantida" "ZZ"
           Exemplo.mundo_inicial).
  vm_compute. reflexivity.
Defined.

(** ** The exporter *)

(** C8, as amended.  For a table with at least one row (the top-level flow
    hands over no other: it skips the export when the table is empty) the
    exporter hands the workbook writer a sheet with the five columns REGIAO,
    NOME DA EMPRESA, NOME DO CONTATO, TELEFONE, SITE, one row per row of the
    table, holding the address, the name, the empty string, the phone and
    the website.  When the writer accepts it, the sheet becomes the content
    of the file; when the writer refuses it (cell contents it cannot write,
    a file it cannot open) the exporter ends with the writer's exception
    and the file holds no sheet. *)
Theorem salvar_resultados_spec (env : Env) (rs : list ResultRow)
    (nome_arquivo cidade : string) (w : World) :
  rs ≠ [] →
  ∃ planilha,
    salvar_resultados env (pd.from_records rs) nome_arquivo cidade w
    = match excel_error env nome_arquivo planilha with
      | None =>
          Done () {| requests := requests w;
                     files := <[nome_arquivo := Planilha planilha]> (files w) |}
      | Some e =>
          Raised e {| requests := requests w;
                      files := <[nome_arquivo := Incompleto]> (files w) |}
      end
    ∧ pd.columns planilha
      = ["REGIAO"; "NOME DA EMPRESA"; "NOME DO CONTATO"; "TELEFONE"; "SITE"]
    ∧ pd.values planilha
      = (λ r, [Endereco r; Nome r; JStr ""; Telefone r; Website r]) <$> rs
    ∧ length (pd.values planilha) = length rs
    ∧ pd.empty (pd.from_records rs) = false.
Proof.
  intros Hrs. exists (planilha_de rs).
  split; [by apply salvar_resultados_run|].
  cbn [planilha_de pd.columns pd.values]. split_and!; try done.
  - by rewrite length_fmap.
  - by destruct rs.
Qed.

Lemma salvar_resultados_witness :
  salvar_resultados Exemplo.acme
    (pd.from_records
       [{| Nome := JStr "Acme Ltda"; Endereco := JStr "Main St";
           Telefone := JStr "555-0100"; Website := NA |}])
    "saida.xlsx" "Springfield" Exemplo.mundo_inicial
  = Done ()
      {| requests := [];
         files :=
           {[ "saida.xlsx" :=
                Planilha
                  {| pd.columns := export_columns;
                     pd.values := [[JStr "Main St"; JStr "Acme Ltda"; JStr "";
                                    JStr "555-0100"; NA]] |} ]} |}.
Proof.
  destruct (salvar_resultados_spec Exemplo.acme
              [{| Nome := JStr "Acme Ltda"; Endereco := JStr "Main St";
                  Telefone := JStr "555-0100"; Website := NA |}]
              "saida.xlsx" "Springfield" Exemplo.mundo_inicial)
    as (planilha & -> & Hcols & Hvals & _); [done|].
  destruct planilha as [cols vals]. simpl in Hcols, Hvals. by subst.
Defined.

(** The table built from no rows has no columns, and the exporter raises
    [KeyError] on it instead of writing a sheet with five columns and no
    row; it is the table the aggregator yields when both searches find
    nothing.  And a table the writer refuses is not written: the exporter
    ends with the exception of the writer. *)
Lemma salvar_resultados_tabela_vazia :
  pd.drop_duplicates (pd.concat (pd.from_records []) (pd.from_records []))
  = inr (pd.from_records [])
  ∧ salvar_resultados Exemplo.acme (pd.from_records [])
      "resultados_busca_formatado.xlsx" "Springfield" Exemplo.mundo_inicial
    = Raised KeyError Exemplo.mundo_inicial
  ∧ salvar_resultados Exemplo.escrita_recusada
      (pd.from_records [Exemplo.linha_acme])
      "resultados_busca_formatado.xlsx" "Springfield" Exemplo.mundo_inicial
    = Raised (Excecao "IllegalCharacterError")
        {| requests := [];
           files := {[ "resultados_busca_formatado.xlsx" := Incompleto ]} |}.
Proof. split_and!; reflexivity. Qed.

#[global] Instance from_records_inj : Inj (=) (=) pd.from_records.
Proof.
  intros x y Heq. apply (f_equal pd.values) in Heq. simpl in Heq.
  by apply (inj (fmap row_values)) in Heq.
Qed.


(** ** The aggregator *)




(** ** Rows *)




(** ** Pagination *)

(** C3.  Let the provider answer the successive requests of a search with
    the pages of a non-empty list, all OK and well formed, of which every
    page but the last carries a token.  Then the search returns, the
    requests it sent to its endpoint are as many as the pages, the first
    carries the initial parameters and each later one carries the token of
    the page before it as [pagetoken].  ([buscar] is the body of both
    [buscar_textsearch] and [buscar_nearbysearch], at their endpoint,
    address key and parameters.) *)
Theorem buscar_segue_tokens (env : Env) (url campo_endereco : string)
    (params0 : gmap string json) (paginas : list json) (fuel : nat)
    (w : World) :
  url ≠ detalhes_url →
  contagem url (requests w) = 0%nat →
  (∀ log p, detalhes_bem_formados (provider env log (detalhes_url, p)) = true) →
  Forall (λ dados, pagina_bem_formada dados = true) paginas →
  (∀ i dados, paginas !! i = Some dados →
     py_bool (token_de dados) = bool_decide (S i < length paginas)%nat) →
  (∀ i dados log p, paginas !! i = Some dados →
     contagem url log = i → provider env log (url, p) = inr dados) →
  paginas ≠ [] →
  (length paginas ≤ fuel)%nat →
  ∃ df w',
    buscar env url campo_endereco params0 fuel w = Done df w'
    ∧ filter (λ r : request, r.1 = url) (requests w')
      = (url, params0)
        :: ((λ t, (url, <["pagetoken" := t]> params0))
              <$> take (length paginas - 1) (token_de <$> paginas))
    ∧ contagem url (requests w') = length paginas.
Proof.
  intros Hurl Hzero Hdet Hwf Htok Hprov Hne Hfuel.
  destruct (paginar_paginas env url campo_endereco paginas fuel w
              (inicio params0)) as (s' & Hrun & Hreqs & _); try done.
  { intros i dados log p Hi Hc. apply (Hprov i); [done|]. lia. }
  assert (filter (λ r : request, r.1 = url) (requests w) = []) as Hnil.
  { by apply length_zero_iff_nil. }
  rewrite Hnil in Hreqs. simpl in Hreqs.
  eexists _, _. split; [by rewrite buscar_run, Hrun|]. split; [done|].
  unfold contagem. rewrite Hreqs. simpl.
  rewrite length_fmap, length_take, length_fmap.
  destruct paginas; [done|]. simpl. lia.
Qed.

Lemma roteiro_detalhes g t n d log p :
  Exemplo.roteiro g t n d log (detalhes_url, p)
  = d (default JNull (p !! "place_id")).
Proof. reflexivity. Qed.

Lemma buscar_segue_tokens_witness :
  ∃ df w',
    buscar_nearbysearch Exemplo.acme 2 "Acme Ltda" (Some "39,-89") (Some 23000)
      Exemplo.mundo_inicial = Done df w'
    ∧ filter (λ r : request, r.1 = nearby_url) (requests w')
      = [(nearby_url,
          nearbysearch_params Exemplo.acme "Acme Ltda" (Some "39,-89")
            (Some 23000));
         (nearby_url,
          <["pagetoken" := JStr "T1"]>
            (nearbysearch_params Exemplo.acme "Acme Ltda" (Some "39,-89")
               (Some 23000)))].
Proof.
  destruct (buscar_segue_tokens Exemplo.acme nearby_url "vicinity"
              (nearbysearch_params Exemplo.acme "Acme Ltda" (Some "39,-89")
                 (Some 23000))
              [Exemplo.pagina_OK
                 [Exemplo.resultado "Acme Ltda" "Main St" "p1"] (Some "T1");
               Exemplo.pagina_OK
                 [Exemplo.resultado "Acme Parts" "2nd St" "p2"] None]
              2 Exemplo.mundo_inicial)
    as (df & w' & Hrun & Hreqs & _).
  - done.
  - reflexivity.
  - intros log p. unfold Exemplo.acme, provider.
    rewrite roteiro_detalhes. unfold Exemplo.detalhes_acme.
    by destruct (decide _).
  - repeat constructor.
  - intros [|[|i]] dados [= <-]; reflexivity.
  - intros [|[|i]] dados log p [= <-] Hc; unfold Exemplo.acme, provider,
      Exemplo.roteiro; cbn [fst snd]; rewrite Hc; reflexivity.
  - done.
  - simpl. lia.
  - exists df, w'. split; [exact Hrun|exact Hreqs].
Defined.

(** ** Failures inside the loop *)




(** ** The name of the detail lookup *)

(** C9.  The name of a row is the name of the hit itself, and the name in
    the detail result has no influence: two environments whose providers
    differ at most in that name give the same tables and the same
    requests. *)
Theorem nome_do_detalhe_nao_usado (env1 env2 : Env) (fuel : nat)
    (razao_social : string) (localizacao : option string) (raio : option Z)
    (cidade estado : option string) (w : World) :
  mesmo_a_menos_do_nome env1 env2 →
  buscar_textsearch env1 fuel razao_social localizacao raio cidade estado w
  = buscar_textsearch env2 fuel razao_social localizacao raio cidade estado w
  ∧ buscar_nearbysearch env1 fuel razao_social localizacao raio w
    = buscar_nearbysearch env2 fuel razao_social localizacao raio w
  ∧ buscar_empresas_por_razao_social env1 fuel razao_social localizacao raio
      cidade estado w
    = buscar_empresas_por_razao_social env2 fuel razao_social localizacao raio
        cidade estado w
  ∧ ∀ campo_endereco resultado l s',
      processar_resultado env1 campo_endereco resultado (w, l) = Done () s' →
      ∃ r, resultados s'.2 = resultados l ++ [r]
           ∧ Nome r = default NA (campo resultado "name").
Proof.
  intros Henv.
  assert (∀ w, buscar_textsearch env1 fuel razao_social localizacao raio
                 cidade estado w
               = buscar_textsearch env2 fuel razao_social localizacao raio
                   cidade estado w) as Ht.
  { intros w0. unfold buscar_textsearch, textsearch_params.
    rewrite (proj1 Henv). by apply buscar_sem_nome. }
  assert (∀ w, buscar_nearbysearch env1 fuel razao_social localizacao raio w
               = buscar_nearbysearch env2 fuel razao_social localizacao raio w)
    as Hn.
  { intros w0. unfold buscar_nearbysearch, nearbysearch_params.
    rewrite (proj1 Henv). by apply buscar_sem_nome. }
  split_and!; try done.
  - unfold buscar_empresas_por_razao_social. run. rewrite Ht.
    destruct (buscar_textsearch env2 _ _ _ _ _ _ _); try done.
    by rewrite Hn.
  - intros campo_endereco resultado l s' ->%processar_Done.
    exists (linha env1 campo_endereco resultado w). split; done.
Qed.

Lemma nome_do_detalhe_nao_usado_witness :
  buscar_empresas_por_razao_social Exemplo.acme 3 "Acme Ltda" (Some "39,-89")
    (Some 23000) (Some "Springfield") (Some "IL") Exemplo.mundo_inicial
  = buscar_empresas_por_razao_social Exemplo.acme_outro_nome 3 "Acme Ltda"
      (Some "39,-89") (Some 23000) (Some "Springfield") (Some "IL")
      Exemplo.mundo_inicial.
Proof.
  apply (nome_do_detalhe_nao_usado Exemplo.acme Exemplo.acme_outro_nome).
  split; [reflexivity|]. intros log [url p].
  unfold Exemplo.acme, Exemplo.acme_outro_nome, provider, Exemplo.roteiro.
  cbn [fst snd]. destruct (decide (url = detalhes_url)) as [->|Hurl].
  - rewrite !decide_False by done.
    unfold Exemplo.detalhes_acme, Exemplo.detalhes_outro_nome.
    destruct (decide _); vm_compute; reflexivity.
  - repeat (destruct (decide _); [reflexivity|]). reflexivity.
Defined.

(** ** The whole run on the reference scenario *)

(** Geocoding succeeds, the text search finds one business, the nearby
    search finds it again and a second one: the sheet written has the two
    businesses, one row each. *)
Example cenario_acme :
  match main Exemplo.acme 3 "Springfield" "IL" Exemplo.mundo_inicial with
  | Done _ w =>
      files w !! "resultados_busca_formatado.xlsx"
      = Some (Planilha
                {| pd.columns := export_columns;
                   pd.values :=
                     [[JStr "Main St"; JStr "Acme Ltda"; JStr "";
                       JStr "555-0100"; JStr "acme.example"];
                      [JStr "2nd St"; JStr "Acme Parts"; JStr ""; NA; NA]] |})
      ∧ length (requests w) = 7%nat
  | _ => False
  end.
Proof. vm_compute. split; reflexivity. Qed.

(** * Further properties of the script *)

(** ** The opening-hours helper *)

Section Horarios.

Import Horarios.

Lemma strip_prefix_Some p s r : strip_prefix p s = Some r → s = p +:+ r.
Proof.
  revert s. induction p as [|a p IH]; intros s; simpl.
  - by intros [= ->].
  - destruct s as [|b s]; [done|]. case_decide; [|done].
    intros Hs%IH. by subst.
Qed.

Lemma str_split1_Some sep s antes depois :
  str_split1 sep s = Some (antes, depois) → s = antes +:+ sep +:+ depois.
Proof.
  revert antes. induction s as [|c s IH]; intros antes; simpl.
  - destruct (strip_prefix sep "") eqn:E; [|done].
    intros [= <- <-]. by apply strip_prefix_Some in E.
  - destruct (strip_prefix sep (String c s)) eqn:E.
    + intros [= <- <-]. by apply strip_prefix_Some in E.
    + destruct (str_split1 sep s) as [[a d]|] eqn:E'; [|done].
      intros [= <- <-].
      change (String c s = String c (a +:+ sep +:+ d)). f_equal. by apply IH.
Qed.

Lemma str_split1_dia dia resto :
  dia ∈ dias_ingles →
  str_split1 ": " (dia +:+ ": " +:+ resto) = Some (dia, resto).
Proof.
  unfold dias_ingles. rewrite !elem_of_cons, elem_of_nil.
  intros H. repeat (destruct H as [->|H]; [reflexivity|]). done.
Qed.

Lemma list_index_Some x l i : list_index x l = Some i → l !! i = Some x.
Proof.
  revert i. induction l as [|y l IH]; intros i; simpl; [done|].
  case_decide; [by intros [= <-]; subst|].
  destruct (list_index x l); simpl; [|done]. intros [= <-]. simpl. by apply IH.
Qed.

(** Reading the day of one entry succeeds on the valid entries, and fails
    with [ValueError] on the others. *)
Lemma dia_abreviado_valida h :
  entrada_valida h → ∃ d, dia_abreviado h = inr d.
Proof.
  intros (dia & resto & -> & Hin). unfold dia_abreviado.
  rewrite (str_split1_dia _ _ Hin).
  revert Hin. unfold dias_ingles. rewrite !elem_of_cons, elem_of_nil.
  intros H. repeat (destruct H as [->|H]; [by eexists|]). done.
Qed.

Lemma dia_abreviado_inr h d : dia_abreviado h = inr d → entrada_valida h.
Proof.
  unfold dia_abreviado.
  destruct (str_split1 ": " h) as [[dia resto]|] eqn:E; [|done].
  apply str_split1_Some in E.
  destruct (list_index dia dias_ingles) as [i|] eqn:Ei; [|done].
  apply list_index_Some in Ei. intros _.
  exists dia, resto. split; [done|]. by eapply list_elem_of_lookup_2.
Qed.

Lemma dia_abreviado_nunca_outra h e : dia_abreviado h ≠ inl (Outra e).
Proof.
  unfold dia_abreviado.
  destruct (str_split1 ": " h) as [[dia resto]|] eqn:E; [|done].
  destruct (list_index dia dias_ingles) as [i|] eqn:Ei; [|done].
  apply list_index_Some in Ei. apply lookup_lt_Some in Ei.
  destruct (dias_semana !! i) as [d'|] eqn:Ed; [done|].
  apply lookup_ge_None in Ed. simpl in *. lia.
Qed.

Lemma dias_de_valida hs :
  Forall entrada_valida hs → ∃ ds, dias_de hs = inr ds.
Proof.
  induction 1 as [|h hs Hh _ [ds IH]]; simpl; [by eexists|].
  destruct (dia_abreviado_valida h Hh) as (d & ->).
  rewrite IH. by eexists.
Qed.

Lemma dias_de_inr hs ds : dias_de hs = inr ds → Forall entrada_valida hs.
Proof.
  revert ds. induction hs as [|h hs IH]; intros ds; simpl; [constructor|].
  destruct (dia_abreviado h) as [e|d] eqn:Ed; [done|].
  apply dia_abreviado_inr in Ed.
  destruct (dias_de hs) as [e|ds'] eqn:E'; [done|].
  intros _. constructor; [done|]. by eapply IH.
Qed.

Lemma dias_de_invalida hs :
  ¬ Forall entrada_valida hs → dias_de hs = inl ValueError.
Proof.
  induction hs as [|h hs IH]; intros Hn; simpl.
  - destruct Hn. constructor.
  - destruct (dia_abreviado h) as [e|d] eqn:E.
    + destruct e as [|e]; [done|]. by apply dia_abreviado_nunca_outra in E.
    + apply dia_abreviado_inr in E.
      rewrite IH; [done|]. intros Hf. apply Hn. by constructor.
Qed.

(** Counting the occurrences of a day. *)
Lemma contar_app d l1 l2 :
  contar d (l1 ++ l2) = (contar d l1 + contar d l2)%nat.
Proof. unfold contar. by rewrite filter_app, length_app. Qed.

Lemma contar_pos d ds : d ∈ ds → (0 < contar d ds)%nat.
Proof.
  intros Hin. unfold contar.
  assert (d ∈ filter (λ x : string, x = d) ds) as Hf
    by (apply list_elem_of_filter; done).
  destruct (filter (λ x : string, x = d) ds); [by apply elem_of_nil in Hf|].
  simpl. lia.
Qed.

Lemma contar_zero d ds : d ∉ ds → contar d ds = 0%nat.
Proof.
  intros Hn. unfold contar.
  destruct (filter (λ x : string, x = d) ds) as [|y l] eqn:E; [done|].
  assert (y ∈ filter (λ x : string, x = d) ds) as Hf by (rewrite E; left).
  apply list_elem_of_filter in Hf as [-> ?]. done.
Qed.

Lemma contar_singleton_eq d : contar d [d] = 1%nat.
Proof. unfold contar. rewrite filter_cons_True; done. Qed.

Lemma contar_singleton_ne x d : d ≠ x → contar x [d] = 0%nat.
Proof.
  intros. apply contar_zero. rewrite list_elem_of_singleton. congruence.
Qed.

Lemma replicate_snoc {A} n (x : A) : replicate n x ++ [x] = replicate (S n) x.
Proof. induction n as [|n IH]; simpl; [done|]. by rewrite IH. Qed.

(** The first loop builds the table of the days read. *)
Lemma tabela_chaves ds : (tabela ds).*1 = pd.keep_first [] ds.
Proof.
  unfold tabela. rewrite <- list_fmap_compose.
  rewrite <- (list_fmap_id (pd.keep_first [] ds)) at 2. done.
Qed.

Lemma registrar_dia_tabela ds d :
  registrar_dia d (tabela ds) = tabela (ds ++ [d]).
Proof.
  unfold registrar_dia. rewrite tabela_chaves.
  unfold tabela at 3. rewrite keep_first_app.
  change (pd.keep_first [] [d]) with [d].
  case_decide as Hd.
  - apply elem_of_keep_first in Hd as [Hd _].
    rewrite filter_cons_False by tauto. rewrite filter_nil, app_nil_r.
    unfold tabela. rewrite <- list_fmap_compose.
    apply list_fmap_ext. intros i x _. simpl.
    case_decide as Hx.
    + subst x. rewrite contar_app, contar_singleton_eq.
      rewrite replicate_snoc. f_equal. f_equal. lia.
    + rewrite contar_app, contar_singleton_ne by done.
      by rewrite Nat.add_0_r.
  - assert (d ∉ ds) as Hd'.
    { intros ?. apply Hd. apply elem_of_keep_first. split; [done|].
      apply not_elem_of_nil. }
    rewrite filter_cons_True by done. rewrite filter_nil.
    rewrite !fmap_app. f_equal.
    + unfold tabela. rewrite <- list_fmap_compose.
      apply list_fmap_ext. intros i x Hx. simpl.
      assert (x ∈ ds) as Hin.
      { apply list_elem_of_lookup_2 in Hx.
        by apply elem_of_keep_first in Hx as [? _]. }
      rewrite decide_False by (intros ->; done).
      rewrite contar_app, contar_singleton_ne by (intros ->; done).
      by rewrite Nat.add_0_r.
    + simpl. rewrite decide_True by done.
      rewrite contar_app, contar_singleton_eq, contar_zero by done. done.
Qed.

Lemma agrupar_tabela hs antes :
  agrupar hs (tabela antes)
  = match dias_de hs with
    | inl e => inl e
    | inr ds => inr (tabela (antes ++ ds))
    end.
Proof.
  revert antes. induction hs as [|h hs IH]; intros antes; simpl.
  - by rewrite app_nil_r.
  - destruct (dia_abreviado h) as [e|d]; [done|].
    rewrite registrar_dia_tabela, IH.
    destruct (dias_de hs) as [e|ds]; [done|].
    by rewrite <- app_assoc.
Qed.

(** The second loop formats each day by the number of its entries. *)
Lemma formatar_dias_replicate n d :
  (0 < n)%nat → formatar_dias (replicate n d) = inr (formato d n).
Proof.
  intros Hn. unfold formatar_dias, formato. rewrite length_replicate.
  assert (∀ x, x ∉ replicate n d ↔ d ≠ x) as Hni.
  { intros x. rewrite elem_of_replicate. split.
    - intros H ->. apply H. split; [done|lia].
    - intros H [-> _]. done. }
  destruct n as [|n]; [lia|].
  assert (head (replicate (S n) d) = Some d) as -> by done.
  assert (last (replicate (S n) d) = Some d) as ->.
  { rewrite <- replicate_snoc. apply last_snoc. }
  repeat case_decide; try done; exfalso;
    rewrite ?Hni in *; intuition congruence.
Qed.

Lemma formatar_fmap (f : string → list string) (g : string → string) l :
  (∀ d, d ∈ l → formatar_dias (f d) = inr (g d)) →
  formatar (f <$> l) = inr (g <$> l).
Proof.
  induction l as [|d l IH]; intros Hf; [done|].
  rewrite !fmap_cons. cbn [formatar].
  rewrite (Hf d) by left. rewrite IH; [done|].
  intros x Hx. apply Hf. by right.
Qed.

Lemma formatar_tabela ds :
  formatar (tabela ds).*2
  = inr ((λ d, formato d (contar d ds)) <$> pd.keep_first [] ds).
Proof.
  unfold tabela. rewrite <- list_fmap_compose.
  apply (formatar_fmap (λ d, replicate (contar d ds) d)).
  intros d [Hd _]%elem_of_keep_first.
  by apply formatar_dias_replicate, contar_pos.
Qed.

Lemma converter_horarios_inr hs ds :
  dias_de hs = inr ds →
  converter_horarios hs
  = inr (str_join ", "
           ((λ d, formato d (contar d ds)) <$> pd.keep_first [] ds)).
Proof.
  intros Hds. unfold converter_horarios.
  change (@nil (string * list string)) with (tabela []).
  rewrite agrupar_tabela, Hds. simpl. by rewrite formatar_tabela.
Qed.

Lemma converter_horarios_inl hs e :
  dias_de hs = inl e → converter_horarios hs = inl e.
Proof.
  intros Hds. unfold converter_horarios.
  change (@nil (string * list string)) with (tabela []).
  by rewrite agrupar_tabela, Hds.
Qed.

Lemma keep_first_disjoint (seen l : list string) :
  NoDup l → (∀ x, x ∈ l → x ∉ seen) → pd.keep_first seen l = l.
Proof.
  intros Hnd. revert seen.
  induction Hnd as [|x l Hx Hnd IH]; intros seen Hdisj; simpl; [done|].
  rewrite decide_False by (apply Hdisj; left).
  f_equal. apply IH.
  intros y Hy. rewrite not_elem_of_cons. split.
  - intros ->. done.
  - apply Hdisj. by right.
Qed.

Lemma contar_NoDup d ds : NoDup ds → d ∈ ds → contar d ds = 1%nat.
Proof.
  intros Hnd Hd.
  apply list_elem_of_split in Hd as (l1 & l2 & ->).
  apply NoDup_app in Hnd as (_ & Hl1 & Hl2%NoDup_cons).
  rewrite contar_app. change (d :: l2) with ([d] ++ l2).
  rewrite contar_app, contar_singleton_eq.
  rewrite (contar_zero d l1), (contar_zero d l2); [done|tauto|].
  intros Hin. apply (Hl1 d Hin). left.
Qed.

(** X1.  The helper looks at the day names only.  When the day of an entry
    cannot be read, it raises.  Otherwise it returns one text for each
    distinct day, in the order in which the days first appear and joined by
    a comma and a space; the text of a day depends on the number of entries
    that name it: SEG-DOM for seven, SEG-SAB for six of a day other than
    Sunday, SEG-SEX for five of a day other than Saturday and Sunday, the
    abbreviation joined to itself by a dash for any other number above one,
    and the bare abbreviation for one.  The opening times are not part of
    the result. *)
Theorem converter_horarios_por_contagem (hs : list string) :
  converter_horarios hs
  = match dias_de hs with
    | inl e => inl e
    | inr ds =>
        inr (str_join ", "
               ((λ d, formato d (contar d ds)) <$> pd.keep_first [] ds))
    end.
Proof.
  destruct (dias_de hs) as [e|ds] eqn:Hds.
  - by apply converter_horarios_inl.
  - by apply converter_horarios_inr.
Qed.

(** Two entries for Monday and one for Tuesday. *)
Lemma converter_horarios_por_contagem_witness :
  converter_horarios Exemplo.dois_turnos = inr "SEG-SEG, TER".
Proof.
  rewrite (converter_horarios_por_contagem Exemplo.dois_turnos).
  vm_compute. reflexivity.
Defined.

(** X2.  The helper returns a text exactly when every entry is the English
    name of a day of the week followed by a colon, a space and any text; in
    every other case it raises [ValueError], also for an entry without a
    colon and a space, and no other exception. *)
Theorem converter_horarios_retorna (hs : list string) :
  (Forall entrada_valida hs ↔ ∃ s, converter_horarios hs = inr s)
  ∧ (¬ Forall entrada_valida hs ↔ converter_horarios hs = inl ValueError).
Proof.
  split; split.
  - intros [ds Hds]%dias_de_valida.
    rewrite (converter_horarios_inr _ _ Hds). by eexists.
  - intros [s Hs]. destruct (dias_de hs) as [e|ds] eqn:E.
    + by rewrite (converter_horarios_inl _ _ E) in Hs.
    + by eapply dias_de_inr.
  - intros Hn. by apply converter_horarios_inl, dias_de_invalida.
  - intros H [ds Hds]%dias_de_valida.
    by rewrite (converter_horarios_inr _ _ Hds) in H.
Qed.

(** X3.  When no two entries name the same day, the result is the
    abbreviations of the days in the order of the entries, joined by a comma
    and a space: no range is formed, whatever the days are. *)
Theorem converter_horarios_dias_distintos (hs ds : list string) :
  dias_de hs = inr ds → NoDup ds →
  converter_horarios hs = inr (str_join ", " ds).
Proof.
  intros Hds Hnd. rewrite (converter_horarios_inr _ _ Hds).
  rewrite keep_first_disjoint by (done || intros; apply not_elem_of_nil).
  do 2 f_equal.
  rewrite <- (list_fmap_id ds) at 2.
  apply list_fmap_ext. intros i d Hd. simpl.
  apply list_elem_of_lookup_2 in Hd.
  by rewrite contar_NoDup.
Qed.

(** The seven days of a week, each named once. *)
Lemma converter_horarios_dias_distintos_witness :
  converter_horarios Exemplo.semana = inr "SEG, TER, QUA, QUI, SEX, SAB, DOM".
Proof.
  apply (converter_horarios_dias_distintos Exemplo.semana dias_semana).
  - vm_compute. reflexivity.
  - apply (bool_decide_unpack _). vm_compute. exact I.
Defined.

End Horarios.

(** ** What a search leaves behind *)

Section Efeitos.

Context (env : Env) (url campo_endereco : string).

(** One hit: at most one detail request, and a row only after it. *)
Lemma processar_efeito resultado w l :
  match processar_resultado env campo_endereco resultado (w, l) with
  | Done _ s' =>
      s' = (log_request (requisicao_detalhes env resultado) w,
            append_resultado (linha env campo_endereco resultado w) l)
  | Raised _ s' =>
      s'.2 = l
      ∧ (s'.1 = w ∨ s'.1 = log_request (requisicao_detalhes env resultado) w)
  | OutOfFuel => False
  end.
Proof.
  destruct (processar_resultado _ _ _ _) as [[] s'|e s'|] eqn:Hr.
  - by apply processar_Done in Hr.
  - split; [by eapply processar_Raised|].
    revert Hr. rewrite processar_resultado_run.
    destruct resultado as [| | | | | |m]; try (intros [= <- <-]; by left).
    destruct (geometria_ok m); [|intros [= <- <-]; by left]. cbn zeta.
    destruct (extrair_contato _) as [e'|contato]; [|done].
    intros [= <- <-]. by right.
  - revert Hr. rewrite processar_resultado_run.
    destruct resultado as [| | | | | |m]; try done.
    destruct (geometria_ok m); [|done]. cbn zeta.
    by destruct (extrair_contato _).
Qed.

Lemma length_linhas itens w :
  length (linhas env campo_endereco itens w) = length itens.
Proof.
  revert w. induction itens as [|r itens IH]; intros w; simpl; [done|].
  by rewrite IH.
Qed.

Lemma contagem_detalhes ds :
  contagem detalhes_url (requisicao_detalhes env <$> ds) = length ds.
Proof.
  unfold contagem. induction ds as [|d ds IH]; [done|].
  rewrite fmap_cons, filter_cons_True by done. simpl. by rewrite IH.
Qed.

(** The hits of a page: the detail requests of the hits handled, and as
    many rows, or one row fewer when the last of them failed after its
    request. *)
Lemma for_each_efeito itens w l :
  match for_each (processar_resultado env campo_endereco) itens (w, l) with
  | Done _ s' =>
      s' = (com_requisicoes (requisicao_detalhes env <$> itens) w,
            com_resultados (linhas env campo_endereco itens w) l)
  | Raised _ s' =>
      ∃ ds rs,
        s'.1 = com_requisicoes (requisicao_detalhes env <$> ds) w
        ∧ s'.2 = com_resultados rs l
        ∧ (length ds = length rs ∨ length ds = S (length rs))
  | OutOfFuel => False
  end.
Proof.
  revert w l. induction itens as [|r itens IH]; intros w l.
  - simpl. unfold mret, M_ret. unfold com_requisicoes, com_resultados.
    rewrite !app_nil_r. destruct w, l; reflexivity.
  - cbn [for_each]. unfold mbind, M_bind.
    pose proof (processar_efeito r w l) as Hr.
    destruct (processar_resultado _ _ _ _) as [[] s1|e1 s1|]; [| |done].
    + subst s1.
      specialize (IH (log_request (requisicao_detalhes env r) w)
                    (append_resultado (linha env campo_endereco r w) l)).
      destruct (for_each _ _ _) as [[] s2|e2 s2|]; [| |done].
      * subst s2. unfold com_requisicoes, com_resultados, log_request,
          append_resultado. simpl. by rewrite <- !app_assoc.
      * destruct IH as (ds & rs & Hw & Hl & Hlen).
        exists (r :: ds), (linha env campo_endereco r w :: rs).
        rewrite Hw, Hl.
        unfold com_requisicoes, com_resultados, log_request,
          append_resultado. simpl. rewrite <- !app_assoc.
        split; [done|]. split; [done|]. lia.
    + destruct Hr as [Hl [Hw|Hw]].
      * exists [], []. rewrite Hw, Hl.
        unfold com_requisicoes, com_resultados. simpl. rewrite !app_nil_r.
        split; [by destruct w|]. split; [by destruct l|]. by left.
      * exists [r], []. rewrite Hw, Hl.
        unfold com_requisicoes, com_resultados, log_request. simpl.
        rewrite !app_nil_r. split; [done|]. split; [by destruct l|]. by right.
Qed.

(** One pass through the loop. *)
Lemma pagina_efeito w l :
  match pagina env url campo_endereco (w, l) with
  | Done _ s' =>
      ∃ ds rs,
        s'.1 = com_requisicoes
                 ((url, proximos_params l) :: (requisicao_detalhes env <$> ds)) w
        ∧ params s'.2 = proximos_params l
        ∧ resultados s'.2 = resultados l ++ rs
        ∧ length ds = length rs
  | Raised _ s' =>
      ∃ ds rs,
        s'.1 = com_requisicoes
                 ((url, proximos_params l) :: (requisicao_detalhes env <$> ds)) w
        ∧ params s'.2 = proximos_params l
        ∧ resultados s'.2 = resultados l ++ rs
        ∧ (length ds = length rs ∨ length ds = S (length rs))
  | OutOfFuel => False
  end.
Proof.
  rewrite pagina_run. cbn zeta.
  set (l1 := if py_bool _ then _ else _). set (req := (url, _)).
  assert (params l1 = proximos_params l ∧ resultados l1 = resultados l)
    as [Hp1 Hr1].
  { subst l1. unfold proximos_params. by destruct (py_bool _). }
  assert (∀ P : list json → list ResultRow → Prop, P [] [] →
    ∃ ds rs,
      (log_request req w, l1).1
      = com_requisicoes (req :: (requisicao_detalhes env <$> ds)) w
      ∧ params (log_request req w, l1).2 = proximos_params l
      ∧ resultados (log_request req w, l1).2 = resultados l ++ rs
      ∧ P ds rs) as Hnada.
  { intros P HP. exists [], []. simpl. rewrite app_nil_r. done. }
  destruct (provider env _ _) as [e1|dados];
    [by apply (Hnada (λ ds rs, _ ∨ _)); left|].
  destruct (py_getitem dados "status") as [e1|status];
    [by apply (Hnada (λ ds rs, _ ∨ _)); left|].
  destruct (py_eq_str status "OK");
    [|by apply (Hnada (λ ds rs, length ds = length rs))].
  destruct (py_getitem dados "results") as [e1|results];
    [by apply (Hnada (λ ds rs, _ ∨ _)); left|].
  destruct (py_iter results) as [e1|itens];
    [by apply (Hnada (λ ds rs, _ ∨ _)); left|].
  pose proof (for_each_efeito itens (log_request req w) l1) as Hfor.
  destruct (for_each _ _ _) as [[] s1|e1 s1|]; [| |done].
  - subst s1.
    exists itens, (linhas env campo_endereco itens (log_request req w)).
    cbn [fst snd set_next_page_token params resultados com_resultados].
    rewrite log_request_com_requisicoes, com_requisicoes_app.
    split; [done|]. split; [done|]. split; [by rewrite Hr1|].
    by rewrite length_linhas.
  - destruct Hfor as (ds & rs & Hw & Hl & Hlen). exists ds, rs.
    rewrite Hw, Hl. cbn [params resultados com_resultados].
    rewrite log_request_com_requisicoes, com_requisicoes_app.
    split; [done|]. split; [done|]. split; [by rewrite Hr1|done].
Qed.

Context (params0 : gmap string json).

Lemma params_da_busca_proximos l :
  params_da_busca params0 (params l) →
  params_da_busca params0 (proximos_params l).
Proof.
  unfold proximos_params.
  destruct (py_bool (next_page_token l)) eqn:Ht; [|done].
  intros [->|(t & _ & ->)]; right; exists (next_page_token l);
    (split; [done|]); [done|]. by rewrite insert_insert_eq.
Qed.

Lemma requisicao_da_busca_pagina p :
  params_da_busca params0 p → requisicao_da_busca env url params0 (url, p).
Proof. intros [->|(t & Ht & ->)]; [by left|]. right; left. eauto. Qed.

Lemma requisicao_da_busca_detalhes ds :
  Forall (requisicao_da_busca env url params0) (requisicao_detalhes env <$> ds).
Proof.
  apply Forall_fmap, Forall_forall. intros d _. right; right.
  unfold requisicao_detalhes. eauto.
Qed.

(** The loop, when it ends: [n] counts the detail requests. *)
Lemma paginar_efeito fuel w l :
  params_da_busca params0 (params l) →
  match paginar env url campo_endereco fuel (w, l) with
  | Done _ s' | Raised _ s' =>
      ∃ reqs rs (n : nat),
        s'.1 = com_requisicoes reqs w
        ∧ Forall (requisicao_da_busca env url params0) reqs
        ∧ resultados s'.2 = resultados l ++ rs
        ∧ (url ≠ detalhes_url → contagem detalhes_url reqs = n)
        ∧ (n = length rs ∨ n = S (length rs))
  | OutOfFuel => True
  end.
Proof.
  revert w l. induction fuel as [|fuel IH]; intros w l Hp; [done|].
  rewrite paginar_S. pose proof (pagina_efeito w l) as Hpag.
  assert (∀ ds, url ≠ detalhes_url →
            contagem detalhes_url
              ((url, proximos_params l) :: (requisicao_detalhes env <$> ds))
            = length ds) as Hcont.
  { intros ds Hurl. unfold contagem.
    rewrite filter_cons_False by (simpl; congruence).
    fold (contagem detalhes_url (requisicao_detalhes env <$> ds)).
    apply contagem_detalhes. }
  assert (∀ ds, Forall (requisicao_da_busca env url params0)
            ((url, proximos_params l) :: (requisicao_detalhes env <$> ds)))
    as Hforall.
  { intros ds. constructor; [|apply requisicao_da_busca_detalhes].
    by apply requisicao_da_busca_pagina, params_da_busca_proximos. }
  destruct (pagina _ _ _ _) as [[] [w1 l1]|e1 [w1 l1]|]; [| | |done].
  - destruct Hpag as (ds & rs & Hw & Hpar & Hres & Hlen). cbn [fst snd] in *.
    specialize (IH w1 l1). rewrite Hpar in IH.
    specialize (IH (params_da_busca_proximos l Hp)).
    destruct (paginar _ _ _ _ _) as [[] s2|e2 s2|]; [| |done].
    all: destruct IH as (reqs & rs' & n & Hw2 & Hall & Hres2 & Hn & Hlen2).
    all: exists (((url, proximos_params l) :: (requisicao_detalhes env <$> ds))
                   ++ reqs), (rs ++ rs'), (length ds + n)%nat.
    all: rewrite Hw2, Hw, com_requisicoes_app, Hres2, Hres, <- app_assoc.
    all: split; [done|]; split; [by apply Forall_app|]; split; [done|].
    all: split; [intros Hurl; by rewrite contagem_app, Hcont, Hn|].
    all: rewrite length_app; lia.
  - destruct Hpag as (ds & rs & Hw & Hpar & Hres & Hlen). cbn [fst snd] in *.
    exists ((url, proximos_params l) :: (requisicao_detalhes env <$> ds)),
      rs, (length ds).
    split; [done|]. split; [done|]. split; [done|]. split; [by apply Hcont|].
    lia.
  - destruct Hpag as (ds & rs & Hw & Hpar & Hres & Hlen). cbn [fst snd] in *.
    exists ((url, proximos_params l) :: (requisicao_detalhes env <$> ds)),
      rs, (length ds).
    split; [done|]. split; [done|]. split; [done|]. split; [by apply Hcont|].
    lia.
Qed.

(** The same for the search function around the loop. *)
Lemma buscar_efeito fuel w :
  match buscar env url campo_endereco params0 fuel w with
  | Done df w' =>
      ∃ reqs rs (n : nat),
        w' = com_requisicoes reqs w
        ∧ Forall (requisicao_da_busca env url params0) reqs
        ∧ df = pd.from_records rs
        ∧ (url ≠ detalhes_url → contagem detalhes_url reqs = n)
        ∧ (n = length rs ∨ n = S (length rs))
  | Raised _ _ => False
  | OutOfFuel => True
  end.
Proof.
  rewrite buscar_run.
  pose proof (paginar_efeito fuel w (inicio params0) (or_introl eq_refl)) as H.
  destruct (paginar _ _ _ _ _) as [[] s|e s|]; [| |done].
  all: destruct H as (reqs & rs & n & Hw & Hall & Hres & Hn & Hlen).
  all: exists reqs, rs, n; rewrite Hres; done.
Qed.

End Efeitos.


(** X5.  A search sends one detail request for each row of the table it
    returns, and at most one more: the one whose answer could not be read,
    which ended the search. *)
Theorem buscar_consultas_de_detalhe (env : Env) (url campo_endereco : string)
    (params0 : gmap string json) (fuel : nat) (w w' : World)
    (df : pd.DataFrame) :
  url ≠ detalhes_url →
  buscar env url campo_endereco params0 fuel w = Done df w' →
  let antes := contagem detalhes_url (requests w) in
  let linhas := length (pd.values df) in
  contagem detalhes_url (requests w') = (antes + linhas)%nat
  ∨ contagem detalhes_url (requests w') = (antes + S linhas)%nat.
Proof.
  intros Hurl Hrun.
  pose proof (buscar_efeito env url campo_endereco params0 fuel w) as H.
  rewrite Hrun in H. destruct H as (reqs & rs & n & -> & _ & -> & Hn & Hlen).
  cbn zeta. cbn [requests com_requisicoes pd.values pd.from_records].
  rewrite contagem_app, length_fmap, (Hn Hurl). lia.
Qed.

(** The nearby search of the reference scenario: two rows, two detail
    requests. *)
Lemma buscar_consultas_de_detalhe_witness :
  ∃ df w',
    buscar_nearbysearch Exemplo.acme 2 "Acme Ltda" (Some "39,-89") (Some 23000)
      Exemplo.mundo_inicial = Done df w'
    ∧ length (pd.values df) = 2%nat
    ∧ contagem detalhes_url (requests w') = 2%nat.
Proof.
  eexists _, _. split; [vm_compute; reflexivity|].
  split; [vm_compute; reflexivity|].
  destruct (buscar_consultas_de_detalhe Exemplo.acme nearby_url "vicinity"
              (nearbysearch_params Exemplo.acme "Acme Ltda" (Some "39,-89")
                 (Some 23000)) 2 Exemplo.mundo_inicial _ _
              ltac:(done) ltac:(vm_compute; reflexivity)) as [H|H].
  - vm_compute. reflexivity.
  - vm_compute in H. discriminate H.
Defined.



(** X7.  The loop of a search has no bound of its own: against a provider
    that answers every page request with a well-formed page that carries a
    token, no number of passes ends the search. *)
Theorem buscar_sem_limite (env : Env) (url campo_endereco : string)
    (params0 : gmap string json) (fuel : nat) (w : World) :
  (∀ log p, ∃ dados,
     provider env log (url, p) = inr dados
     ∧ pagina_bem_formada dados = true
     ∧ py_bool (token_de dados) = true) →
  (∀ log p, detalhes_bem_formados (provider env log (detalhes_url, p)) = true) →
  buscar env url campo_endereco params0 fuel w = OutOfFuel.
Proof.
  intros Hprov Hdet. rewrite buscar_run.
  enough (∀ s, paginar env url campo_endereco fuel s = OutOfFuel) as ->;
    [done|].
  induction fuel as [|fuel IH]; intros [w0 l0]; [done|].
  rewrite paginar_S, pagina_run. cbn zeta.
  destruct (Hprov (requests w0) (proximos_params l0))
    as (dados & -> & Hwf & Htok).
  destruct (pagina_bem_formada_inv _ Hwf) as (itens & -> & -> & Hitens).
  unfold py_eq_str. rewrite bool_decide_true by done.
  cbn [py_iter]. rewrite for_each_bem_formados by done.
  rewrite Htok. apply IH.
Qed.

Lemma buscar_sem_limite_witness :
  buscar_textsearch Exemplo.sem_fim 1000 "Acme" None None None None
    Exemplo.mundo_inicial = OutOfFuel.
Proof.
  apply (buscar_sem_limite Exemplo.sem_fim BASE_URL "formatted_address").
  - intros log p. eexists. split; [reflexivity|].
    split; vm_compute; reflexivity.
  - intros log p. vm_compute. reflexivity.
Defined.

(** ** The coordinate resolver, read backwards *)

(** X8.  The resolver returns coordinates only when the provider answered
    with status OK and a first candidate that has a geometry, a location, a
    latitude and a longitude; the text returned is never empty, so that the
    test the top-level flow makes on it succeeds. *)
Theorem obter_coordenadas_inversao (env : Env) (cidade estado loc : string)
    (w w' : World) :
  obter_coordenadas env cidade estado w = Done (Some loc) w' →
  ∃ dados results primeiro geometry location lat lng,
    provider env (requests w) (geocode_url, geocode_params env cidade estado)
    = inr dados
    ∧ py_getitem dados "status" = inr (JStr "OK")
    ∧ py_getitem dados "results" = inr results
    ∧ py_getitem_int results 0 = inr primeiro
    ∧ py_getitem primeiro "geometry" = inr geometry
    ∧ py_getitem geometry "location" = inr location
    ∧ py_getitem location "lat" = inr lat
    ∧ py_getitem location "lng" = inr lng
    ∧ loc = py_str env lat +:+ "," +:+ py_str env lng
    ∧ loc ≠ "".
Proof.
  unfold obter_coordenadas, requests_get_json. run.
  destruct (provider env _ _) as [e|dados]; [done|].
  destruct (py_getitem dados "status") as [e|status] eqn:Hst; [done|].
  unfold py_eq_str. case_bool_decide as Hok; [subst status|done].
  destruct (py_getitem dados "results") as [e|results] eqn:H1; [done|].
  destruct (py_getitem_int results 0) as [e|primeiro] eqn:H2; [done|].
  destruct (py_getitem primeiro "geometry") as [e|geometry] eqn:H3; [done|].
  destruct (py_getitem geometry "location") as [e|location] eqn:H4; [done|].
  destruct (py_getitem location "lat") as [e|lat] eqn:H5; [done|].
  destruct (py_getitem location "lng") as [e|lng] eqn:H6; [done|].
  intros Hrun. injection Hrun as Hloc _. subst loc.
  exists dados, results, primeiro, geometry, location, lat, lng.
  split_and!; try done. by destruct (py_str env lat).
Qed.

Lemma obter_coordenadas_inversao_witness :
  ∃ lat lng,
    "39,-89" = py_str Exemplo.acme lat +:+ "," +:+ py_str Exemplo.acme lng.
Proof.
  destruct (obter_coordenadas_inversao Exemplo.acme "Springfield" "IL" "39,-89"
              Exemplo.mundo_inicial _ ltac:(vm_compute; reflexivity))
    as (dados & results & primeiro & geometry & location & lat & lng & H).
  exists lat, lng. apply H.
Defined.

(** ** The top-level flow as a whole *)









(** ** The exporter on any table *)

Lemma renomear_lookup c :
  renomear !! c
  = if decide (c = "Endereço") then Some "REGIAO"
    else if decide (c = "Nome") then Some "NOME DA EMPRESA"
    else if decide (c = "Telefone") then Some "TELEFONE"
    else if decide (c = "Website") then Some "SITE"
    else None.
Proof.
  unfold renomear.
  repeat (case_decide;
          [subst c; by repeat (rewrite lookup_insert_ne by done);
                    rewrite ?lookup_insert_eq, ?lookup_singleton_eq|]).
  repeat (rewrite lookup_insert_ne by done).
  by rewrite lookup_singleton_ne.
Qed.

Lemma elem_of_rename_columns df antiga nova :
  renomear !! antiga = Some nova → renomear !! nova = None →
  (∀ c, renomear !! c = Some nova → c = antiga) →
  nova ∈ pd.columns (pd.rename renomear df) ↔ tem_coluna df antiga nova.
Proof.
  intros Ha Hn Huniq. unfold pd.rename, tem_coluna. cbn [pd.columns].
  rewrite list_elem_of_fmap. split.
  - intros (c & Hc & Hin). destruct (renomear !! c) as [c'|] eqn:E; simpl in Hc.
    + subst c'. apply Huniq in E as ->. by left.
    + subst c. by right.
  - intros [Hin|Hin].
    + exists antiga. by rewrite Ha.
    + exists nova. by rewrite Hn.
Qed.

Lemma columns_setitem c v df x :
  x ∈ pd.columns (pd.setitem c v df) ↔ x ∈ pd.columns df ∨ x = c.
Proof.
  unfold pd.setitem. case_decide as Hc; cbn [pd.columns].
  - split; [by left|]. intros [?| ->]; done.
  - rewrite elem_of_app, list_elem_of_singleton. done.
Qed.

Lemma length_values_setitem c v df :
  length (pd.values (pd.setitem c v df)) = length (pd.values df).
Proof.
  unfold pd.setitem. case_decide; cbn [pd.values]; by rewrite length_fmap.
Qed.

Lemma exportavel_getitem df :
  Forall (λ c, c ∈ pd.columns
                 (pd.setitem "NOME DO CONTATO" (JStr "")
                    (pd.rename renomear df))) export_columns
  ↔ exportavel df.
Proof.
  unfold export_columns, exportavel.
  rewrite !Forall_cons, Forall_nil, !columns_setitem.
  assert (∀ antiga nova,
            renomear !! antiga = Some nova → renomear !! nova = None →
            (∀ c, renomear !! c = Some nova → c = antiga) →
            nova ≠ "NOME DO CONTATO" →
            (nova ∈ pd.columns (pd.rename renomear df)
             ∨ nova = "NOME DO CONTATO")
            ↔ tem_coluna df antiga nova) as Hcol.
  { intros antiga nova Ha Hn Hu Hne.
    rewrite (elem_of_rename_columns df antiga nova) by done. tauto. }
  assert (∀ nova antiga c, renomear !! antiga = Some nova →
            renomear !! c = Some nova → c = antiga) as Hu.
  { intros nova antiga c. rewrite !renomear_lookup.
    repeat case_decide; subst; congruence. }
  rewrite (Hcol "Endereço" "REGIAO"), (Hcol "Nome" "NOME DA EMPRESA"),
    (Hcol "Telefone" "TELEFONE"), (Hcol "Website" "SITE");
    try done; [tauto|intros c; by apply Hu..].
Qed.

(** X11.  The exporter on any table whose column labels are distinct
    after the renaming (pandas treats repeated labels differently, which
    the frames here do not cover).  It needs, for each of the four columns
    it renames, the column under its old or under its new label.  With them
    it hands the workbook writer a sheet of the five export columns and as
    many rows as the table has, and ends as the writer does: with the sheet
    written, or with the exception of the writer.  When a column is missing
    it raises [KeyError] before anything is written. *)
Theorem salvar_resultados_colunas (env : Env) (df : pd.DataFrame)
    (nome_arquivo cidade : string) (w : World) :
  NoDup (pd.columns (pd.rename renomear df)) →
  (exportavel df →
   ∃ planilha,
     salvar_resultados env df nome_arquivo cidade w
     = match excel_error env nome_arquivo planilha with
       | None =>
           Done () {| requests := requests w;
                      files := <[nome_arquivo := Planilha planilha]> (files w) |}
       | Some e =>
           Raised e {| requests := requests w;
                       files := <[nome_arquivo := Incompleto]> (files w) |}
       end
     ∧ pd.columns planilha = export_columns
     ∧ length (pd.values planilha) = length (pd.values df))
  ∧ (¬ exportavel df →
     salvar_resultados env df nome_arquivo cidade w = Raised KeyError w).
Proof.
  intros _. unfold salvar_resultados, pd.getitem. cbn zeta.
  split; intros Hexp.
  - rewrite decide_True by (by apply exportavel_getitem).
    run. unfold to_excel. eexists. split; [done|].
    cbn [pd.columns pd.values]. split; [done|].
    rewrite length_fmap, length_values_setitem. done.
  - rewrite decide_False by (by rewrite exportavel_getitem). by run.
Qed.

(** A table of one row, and a table without the address column. *)
Lemma salvar_resultados_colunas_witness :
  (∃ planilha,
     salvar_resultados Exemplo.acme (pd.from_records [Exemplo.linha_acme])
       "saida.xlsx" "Springfield" Exemplo.mundo_inicial
     = Done () {| requests := [];
                  files := {[ "saida.xlsx" := Planilha planilha ]} |}
     ∧ pd.columns planilha = export_columns
     ∧ length (pd.values planilha) = 1%nat)
  ∧ salvar_resultados Exemplo.acme
      {| pd.columns := ["Nome"; "Telefone"; "Website"];
         pd.values := [[JStr "Acme Ltda"; NA; NA]] |}
      "saida.xlsx" "Springfield" Exemplo.mundo_inicial
    = Raised KeyError Exemplo.mundo_inicial.
Proof.
  split.
  - apply (salvar_resultados_colunas Exemplo.acme
             (pd.from_records [Exemplo.linha_acme])
             "saida.xlsx" "Springfield" Exemplo.mundo_inicial).
    + apply (bool_decide_unpack _). vm_compute. exact I.
    + unfold exportavel, tem_coluna. apply (bool_decide_unpack _).
      vm_compute. exact I.
  - apply (salvar_resultados_colunas Exemplo.acme
             {| pd.columns := ["Nome"; "Telefone"; "Website"];
                pd.values := [[JStr "Acme Ltda"; NA; NA]] |}).
    + apply (bool_decide_unpack _). vm_compute. exact I.
    + unfold exportavel, tem_coluna. apply (bool_decide_unpack _).
      vm_compute. exact I.
Defined.
